(** * cbp: agents that inspect and stamp arbitrary values

    A shallow embedding of [dist/index.js].  The agents of the library look
    at a value of unknown type and either "stamp" it as a value of the type
    they inspect for, or refuse.  Every agent has four methods:

    - [verifyStamp]   is the value already of the inspected type;
    - [makeStampable] the modifications made before a stamp is verified;
    - [canStamp]      [makeStampable] followed by [verifyStamp];
    - [stamp]         the stamped value, or an exception.

    The values are those of JavaScript, with the part of the object model
    the agents touch: [typeof], [Array.isArray], the [in] operator and
    property reads along the prototype chain, and the own enumerable
    properties that lodash's [mapValues] and [mapKeys] walk over. *)

From Stdlib Require Import Floats String Ascii List Bool Arith ZArith Lia.
From Stdlib Require Import DecimalString DecimalNat.
Import ListNotations.
Open Scope string_scope.
Open Scope list_scope.

(** ** JavaScript values *)

(** Numbers are IEEE 754 doubles, as in the language.  An ordinary object
    carries its prototype and its own enumerable data properties, in
    property order (no name twice, the array indices first and in
    ascending order); arrays are dense.  The two built-in prototypes are
    values of their own, as are the functions they hold.  Accessors other
    than [Object.prototype.__proto__], symbols, sparse arrays and own
    properties that are not enumerable are outside the model. *)
#[local] Unset Elimination Schemes.

Inductive value : Type :=
| VUndefined
| VNull
| VBool (b : bool)
| VNumber (x : float)
| VString (s : string)
| VFunction (name : string)
| VObjectPrototype
| VArrayPrototype
| VArray (items : list value)
| VObject (proto : value) (props : list (string * value)).

#[local] Set Elimination Schemes.

(** [typeof v] *)
Definition typeof (v : value) : string :=
  match v with
  | VUndefined => "undefined"
  | VBool _ => "boolean"
  | VNumber _ => "number"
  | VString _ => "string"
  | VFunction _ => "function"
  | VNull | VObjectPrototype | VArrayPrototype | VArray _ | VObject _ _ =>
      "object"
  end.

(** [v === null] *)
Definition isNull (v : value) : bool :=
  match v with VNull => true | _ => false end.

(** [Array.isArray v]; [Array.prototype] is itself an (empty) array. *)
Definition isArray (v : value) : bool :=
  match v with VArray _ | VArrayPrototype => true | _ => false end.

(** The elements of an array, in index order. *)
Definition elements (v : value) : list value :=
  match v with VArray items => items | _ => [] end.

(** An object literal, or an object read by [JSON.parse]. *)
Definition plain (props : list (string * value)) : value :=
  VObject VObjectPrototype props.

Definition isNaN (x : float) : bool := negb (PrimFloat.eqb x x).

(** [x === y]: IEEE equality on numbers, so that [NaN] differs from itself.
    Arrays and ordinary objects are compared by reference, which the model
    does not keep: two of them are never the same object here. *)
Definition strictEquals (x y : value) : bool :=
  match x, y with
  | VUndefined, VUndefined => true
  | VNull, VNull => true
  | VBool a, VBool b => Bool.eqb a b
  | VNumber a, VNumber b => PrimFloat.eqb a b
  | VString a, VString b => String.eqb a b
  | VFunction a, VFunction b => String.eqb a b
  | VObjectPrototype, VObjectPrototype => true
  | VArrayPrototype, VArrayPrototype => true
  | _, _ => false
  end.

(** SameValueZero, the comparison of [Array.prototype.includes]: that of
    [===], except that [NaN] is the same value as [NaN]. *)
Definition sameValueZero (x y : value) : bool :=
  match x, y with
  | VNumber a, VNumber b => PrimFloat.eqb a b || (isNaN a && isNaN b)
  | _, _ => strictEquals x y
  end.

(** [xs.includes(x)] *)
Definition includes (xs : list value) (x : value) : bool :=
  existsb (fun y => sameValueZero y x) xs.

(** ** Properties *)

Fixpoint assoc {A : Type} (k : string) (ps : list (string * A)) : option A :=
  match ps with
  | [] => None
  | (k', v) :: ps' => if String.eqb k' k then Some v else assoc k ps'
  end.

(** The canonical string of an array index. *)
Definition indexKey (n : nat) : string :=
  NilEmpty.string_of_uint (Nat.to_uint n).

Fixpoint indexedFrom (n : nat) (items : list value) : list (string * value) :=
  match items with
  | [] => []
  | x :: items' => (indexKey n, x) :: indexedFrom (S n) items'
  end.

(** The index properties of an array. *)
Definition indexed (items : list value) : list (string * value) :=
  indexedFrom 0 items.

Definition isDigit (c : ascii) : bool :=
  ((48 <=? nat_of_ascii c) && (nat_of_ascii c <=? 57))%nat.

Definition digitOf (c : ascii) : Z := Z.of_nat (nat_of_ascii c - 48).

(** Reads digits after those of [acc]; [n] counts them. *)
Fixpoint readDigits (s : string) (acc : Z) (n : nat) : Z * nat * string :=
  match s with
  | String c s' =>
      if isDigit c then readDigits s' (acc * 10 + digitOf c)%Z (S n)
      else (acc, n, s)
  | EmptyString => (acc, n, s)
  end.

(** The array index a property name writes, if it writes one: a decimal
    numeral without a leading zero, below 2^32 - 1. *)
Definition arrayIndex (k : string) : option Z :=
  let '(n, digits, rest) := readDigits k 0%Z 0 in
  if String.eqb rest "" && negb (digits =? 0)%nat
     && (String.eqb k "0" || negb (prefix "0" k))
     && (n <? 4294967295)%Z
  then Some n
  else None.

(** The order of the properties of an object: the array indices first, in
    ascending order, then the other names, in the order of their creation.
    [keyBefore k k'] says that a new property [k] goes before a property
    [k'] the object has. *)
Definition keyBefore (k k' : string) : bool :=
  match arrayIndex k, arrayIndex k' with
  | Some n, Some n' => (n <? n')%Z
  | Some _, None => true
  | None, _ => false
  end.

(** Is a list of names one that the own property names of an object can
    be: no name stands after a name it goes before. *)
Fixpoint inPropertyOrder (keys : list string) : bool :=
  match keys with
  | [] => true
  | k :: keys' =>
      forallb (fun k' => negb (keyBefore k' k)) keys' && inPropertyOrder keys'
  end.

Definition numberOfNat (n : nat) : float :=
  PrimFloat.of_uint63 (Uint63.of_Z (Z.of_nat n)).

(** The own property names of [Object.prototype]. *)
Definition ObjectPrototypeNames : list string :=
  [ "constructor"; "__defineGetter__"; "__defineSetter__"; "hasOwnProperty";
    "__lookupGetter__"; "__lookupSetter__"; "isPrototypeOf";
    "propertyIsEnumerable"; "toString"; "valueOf"; "__proto__";
    "toLocaleString" ].

(** The own property names of [Array.prototype], [length] apart. *)
Definition ArrayPrototypeNames : list string :=
  [ "constructor"; "at"; "concat"; "copyWithin"; "fill"; "find"; "findIndex";
    "findLast"; "findLastIndex"; "lastIndexOf"; "pop"; "push"; "reverse";
    "shift"; "unshift"; "slice"; "sort"; "splice"; "includes"; "indexOf";
    "join"; "keys"; "entries"; "values"; "forEach"; "filter"; "flat";
    "flatMap"; "map"; "every"; "some"; "reduce"; "reduceRight";
    "toLocaleString"; "toString"; "toReversed"; "toSorted"; "toSpliced";
    "with" ].

Definition isObjectPrototypeName (k : string) : bool :=
  existsb (String.eqb k) ObjectPrototypeNames.

(** The prototype of an object. *)
Definition prototypeOf (v : value) : value :=
  match v with
  | VObject proto _ => proto
  | VArray _ => VArrayPrototype
  | VArrayPrototype => VObjectPrototype
  | _ => VNull
  end.

(** A property of [Object.prototype], read on behalf of [receiver]. *)
Definition findInObjectPrototype (receiver : value) (k : string)
  : option value :=
  if String.eqb k "__proto__" then Some (prototypeOf receiver)
  else if isObjectPrototypeName k
       then Some (VFunction ("Object.prototype." ++ k))
       else None.

(** A property of [Array.prototype] or further up. *)
Definition findInArrayPrototype (receiver : value) (k : string)
  : option value :=
  if String.eqb k "length" then Some (VNumber 0)
  else if existsb (String.eqb k) ArrayPrototypeNames
       then Some (VFunction ("Array.prototype." ++ k))
       else findInObjectPrototype receiver k.

(** The own properties of an array: its length and its elements. *)
Definition findInArray (items : list value) (k : string) : option value :=
  if String.eqb k "length" then Some (VNumber (numberOfNat (length items)))
  else assoc k (indexed items).

(** The property [k] of [o], looked up along the prototype chain of [o]
    for a read on [receiver]; [None] when no object of the chain has it. *)
Fixpoint findProperty (receiver o : value) (k : string) : option value :=
  match o with
  | VObject proto props =>
      match assoc k props with
      | Some v => Some v
      | None => findProperty receiver proto k
      end
  | VArray items =>
      match findInArray items k with
      | Some v => Some v
      | None => findInArrayPrototype receiver k
      end
  | VArrayPrototype => findInArrayPrototype receiver k
  | VObjectPrototype => findInObjectPrototype receiver k
  | _ => None
  end.

(** [o[k]] *)
Definition get (o : value) (k : string) : value :=
  match findProperty o o k with Some v => v | None => VUndefined end.

(** The own property question, which [Object.hasOwn] answers. *)
Definition hasOwnProperty (o : value) (k : string) : bool :=
  match o with
  | VObject _ props =>
      match assoc k props with Some _ => true | None => false end
  | VArray items =>
      match findInArray items k with Some _ => true | None => false end
  | VArrayPrototype =>
      String.eqb k "length" || existsb (String.eqb k) ArrayPrototypeNames
  | VObjectPrototype => isObjectPrototypeName k
  | _ => false
  end.

(** The own enumerable string-keyed properties, in property order: what
    [Object.entries] and lodash's [keys] enumerate. *)
Definition ownEnumerable (v : value) : list (string * value) :=
  match v with
  | VObject _ props => props
  | VArray items => indexed items
  | _ => []
  end.

(** [function hasProperty(data, property) { return property in data; }]

    [data] is declared an object; the [in] operator looks along the whole
    prototype chain. *)
Definition hasProperty (data : value) (property : string) : bool :=
  match findProperty data data property with Some _ => true | None => false end.

(** ** Completions *)

(** The two constructors of exceptions the library can meet: the [Error]
    it throws itself, and the [TypeError] of a call on something that is
    not a function. *)
Inductive exn : Type :=
| Error (message : string)
| TypeError (message : string).

Inductive completion (A : Type) : Type :=
| Normal (a : A)
| Throw (e : exn).

Arguments Normal {A} a.
Arguments Throw {A} e.

Definition bind {A B : Type} (c : completion A) (k : A -> completion B)
  : completion B :=
  match c with
  | Normal a => k a
  | Throw e => Throw e
  end.

Notation "x <- c ;; k" := (bind c (fun x => k))
  (at level 61, c at next level, right associativity).

(** ** lodash *)

(** [_.mapValues(object, iteratee)]: a new plain object with the own
    enumerable keys of [object] and the values [iteratee(value, key)], run
    in property order. *)
Fixpoint mapProps (iteratee : value -> string -> completion value)
    (ps : list (string * value)) : completion (list (string * value)) :=
  match ps with
  | [] => Normal []
  | (k, v) :: ps' =>
      v' <- iteratee v k ;;
      rest <- mapProps iteratee ps' ;;
      Normal ((k, v') :: rest)
  end.

Definition mapValues (object : value)
    (iteratee : value -> string -> completion value) : completion value :=
  ps <- mapProps iteratee (ownEnumerable object) ;;
  Normal (plain ps).

(** The value of the property [k] replaced by [v]. *)
Fixpoint replaceValue (ps : list (string * value)) (k : string) (v : value)
  : list (string * value) :=
  match ps with
  | [] => []
  | (k', v') :: ps' =>
      if String.eqb k' k then (k', v) :: ps'
      else (k', v') :: replaceValue ps' k v
  end.

(** A new property [k], put at its place in the order of the properties:
    an array index before the first larger index and before the names that
    are no index, any other name at the end. *)
Fixpoint insertKey (ps : list (string * value)) (k : string) (v : value)
  : list (string * value) :=
  match ps with
  | [] => [(k, v)]
  | (k', v') :: ps' =>
      if keyBefore k k' then (k, v) :: ps
      else (k', v') :: insertKey ps' k v
  end.

(** [result[key] = v] on a property list. *)
Definition assign (ps : list (string * value)) (k : string) (v : value)
  : list (string * value) :=
  match assoc k ps with
  | Some _ => replaceValue ps k v
  | None => insertKey ps k v
  end.

(** [_.mapKeys(object, iteratee)]: a new plain object that is given, for
    each own enumerable property of [object] in turn, the property
    [iteratee(value, key)] with the value of that property; of two
    properties sent to one key the later one is kept, at the place of the
    first. *)
Definition mapKeys (object : value) (iteratee : value -> string -> string)
  : value :=
  plain (fold_left
           (fun acc kv => assign acc (iteratee (snd kv) (fst kv)) (snd kv))
           (ownEnumerable object) []).

(** ** Agents *)

(** One constructor per class of agent, with the fields of the class.  The
    shape of an [ObjectAgent] and the object of an [EnumAgent] are object
    literals: their own enumerable entries, in property order. *)
#[local] Unset Elimination Schemes.

Inductive agent : Type :=
| StringAgent
| NumberAgent
| BooleanAgent
| NullAgent
| UnionAgent (u v : agent)
| ArrayAgent (itemAgent : agent)
| EnumAgent (enumObj : list (string * value))
| ObjectAgent (objShape : list (string * agent))
| UnsnakeAgent (objAgent : agent)
| ConversionAgent (inputAgent : agent) (converter : value -> value)
                  (outputAgent : agent).

#[local] Set Elimination Schemes.

(** The exports of the module. *)
Definition stringAgent : agent := StringAgent.
Definition numberAgent : agent := NumberAgent.
Definition booleanAgent : agent := BooleanAgent.
Definition nullAgent : agent := NullAgent.
Definition unionAgent (leftType rightType : agent) : agent :=
  UnionAgent leftType rightType.
Definition nullableAgent (otherAgent : agent) : agent :=
  unionAgent nullAgent otherAgent.
Definition arrayAgent (itemAgent : agent) : agent := ArrayAgent itemAgent.
Definition enumAgent (enumObj : list (string * value)) : agent :=
  EnumAgent enumObj.
Definition objectAgent (shapeObj : list (string * agent)) : agent :=
  ObjectAgent shapeObj.
Definition unsnakeAgent (objAgent : agent) : agent := UnsnakeAgent objAgent.
Definition conversionAgent (inputAgent : agent) (converter : value -> value)
    (outputAgent : agent) : agent :=
  ConversionAgent inputAgent converter outputAgent.

(** [Object.values(enumObj)] *)
Definition ObjectValues {A : Type} (o : list (string * A)) : list A :=
  map snd o.

(** [typeof requested !== 'object' || requested === null] *)
Definition notAnObject (requested : value) : bool :=
  negb (String.eqb (typeof requested) "object") || isNull requested.

(** [verifyStamp]: is the given value a [T]. *)
Fixpoint verifyStamp (a : agent) (requested : value) {struct a} : bool :=
  match a with
  | StringAgent => String.eqb (typeof requested) "string"
  | NumberAgent => String.eqb (typeof requested) "number"
  | BooleanAgent => String.eqb (typeof requested) "boolean"
  | NullAgent => isNull requested
  | UnionAgent u v => verifyStamp u requested || verifyStamp v requested
  | ArrayAgent itemAgent =>
      if negb (isArray requested) then false
      else forallb (verifyStamp itemAgent) (elements requested)
  | EnumAgent enumObj =>
      let enumValues := ObjectValues enumObj in
      includes enumValues requested
  | ObjectAgent objShape =>
      if notAnObject requested then false
      else
        (fix every (entries : list (string * agent)) : bool :=
           match entries with
           | [] => true
           | (property, ag) :: entries' =>
               (if negb (hasProperty requested property) then false
                else verifyStamp ag (get requested property))
               && every entries'
           end) objShape
  | UnsnakeAgent objAgent => verifyStamp objAgent requested
  | ConversionAgent _ _ outputAgent => verifyStamp outputAgent requested
  end.

(** The methods of [BaseAgent], over the methods of the instance they are
    called on. *)
Definition BaseAgent_canStamp (makeStampable : value -> completion value)
    (verifyStamp : value -> bool) (requested : value) : completion bool :=
  stampable <- makeStampable requested ;;
  Normal (verifyStamp stampable).

Definition BaseAgent_makeStampable (requested : value) : completion value :=
  Normal requested.

(** What calling [.makeStampable] on a function or on [Object.prototype]
    throws. *)
Definition notAFunction : exn :=
  TypeError "this.objShape[key].makeStampable is not a function".

Section Agents.

(** lodash's [camelCase], on property names. *)
Variable camelCase : string -> string.

(** [ToString], the conversion a template literal applies to a value.  On
    an object it calls the [toString] of the object, then its [valueOf],
    and it throws, with a [TypeError] when neither gives a primitive, or
    with whatever the method called throws. *)
Variable ToString : value -> completion string.

(** [makeStampable]: the modifications made to [requested] before it is
    stamped.  In [ObjectAgent], [this.objShape[key]] reads the shape, an
    object literal: a key the shape does not declare, but that
    [Object.prototype] has, reads as a function (for [__proto__], as the
    prototype itself), not as [undefined]. *)
Fixpoint makeStampable (a : agent) (requested : value) {struct a}
  : completion value :=
  match a with
  | StringAgent | NumberAgent | BooleanAgent | NullAgent | EnumAgent _ =>
      BaseAgent_makeStampable requested
  | UnionAgent u v =>
      cu <- BaseAgent_canStamp (makeStampable u) (verifyStamp u) requested ;;
      if cu then makeStampable u requested
      else
        cv <- BaseAgent_canStamp (makeStampable v) (verifyStamp v) requested ;;
        if cv then makeStampable v requested
        else Normal requested
  | ArrayAgent itemAgent =>
      if negb (isArray requested) then Normal requested
      else
        items <- (fix map (xs : list value) : completion (list value) :=
                    match xs with
                    | [] => Normal []
                    | x :: xs' =>
                        y <- makeStampable itemAgent x ;;
                        ys <- map xs' ;;
                        Normal (y :: ys)
                    end) (elements requested) ;;
        Normal (VArray items)
  | ObjectAgent objShape =>
      if notAnObject requested then Normal (VBool false)
      else
        mapValues requested (fun val key =>
          (fix field (entries : list (string * agent)) : completion value :=
             match entries with
             | [] =>
                 if isObjectPrototypeName key then Throw notAFunction
                 else Normal val
             | (property, ag) :: entries' =>
                 if String.eqb property key then makeStampable ag val
                 else field entries'
             end) objShape)
  | UnsnakeAgent objAgent =>
      if notAnObject requested then Normal requested
      else
        let unsnaked := mapKeys requested (fun _ key => camelCase key) in
        makeStampable objAgent unsnaked
  | ConversionAgent inputAgent converter _ =>
      if negb (verifyStamp inputAgent requested) then Normal requested
      else Normal (converter requested)
  end.

(** [canStamp]: can the given value be made into a [T] with
    [makeStampable].  No class overrides it. *)
Definition canStamp (a : agent) (requested : value) : completion bool :=
  BaseAgent_canStamp (makeStampable a) (verifyStamp a) requested.

(** What [throw new Error(`${requested} cannot be stamped by agent
    ${this}`)] throws: the [Error] with that message when [requested] has a
    string, and otherwise what its conversion to a string throws, before
    any [Error] is made.  An agent has no [toString] of its own, and reads
    as [[object Object]]. *)
Definition cannotBeStamped (requested : value) : exn :=
  match ToString requested with
  | Normal s => Error (s ++ " cannot be stamped by agent [object Object]")
  | Throw e => e
  end.

Definition BaseAgent_stamp (makeStampable : value -> completion value)
    (verifyStamp : value -> bool) (requested : value) : completion value :=
  stampable <- makeStampable requested ;;
  if verifyStamp stampable then Normal stampable
  else Throw (cannotBeStamped requested).

(** [stamp]: the converted value when the conversion is valid, an exception
    otherwise.  [ConversionAgent] has a [stamp] of its own. *)
Definition stamp (a : agent) (requested : value) : completion value :=
  match a with
  | ConversionAgent inputAgent converter _ =>
      if verifyStamp inputAgent requested then Normal (converter requested)
      else Throw (cannotBeStamped requested)
  | _ => BaseAgent_stamp (makeStampable a) (verifyStamp a) requested
  end.

End Agents.

(** ** A converter: [parseFloat]

    The built-in, on strings: white space (that of ASCII), a sign, then the
    longest decimal literal ([Infinity], or digits with an optional
    fraction and an optional exponent); [NaN] when there is none.  The
    digits and the exponent are read as integers, and the number they
    write is rounded once, to the nearest double, ties to even. *)

Definition isWhiteSpace (c : ascii) : bool :=
  existsb (Nat.eqb (nat_of_ascii c)) [9; 10; 11; 12; 13; 32]%nat.

Fixpoint skipWhiteSpace (s : string) : string :=
  match s with
  | String c s' => if isWhiteSpace c then skipWhiteSpace s' else s
  | EmptyString => s
  end.

(** The exponent part at the head of [s]: an [e], a sign, digits.  Zero
    when there is none, or when no digit follows. *)
Definition readExponent (s : string) : Z :=
  match s with
  | String c s' =>
      if Ascii.eqb c "e" || Ascii.eqb c "E" then
        match s' with
        | String "-" s'' =>
            let '(e, n, _) := readDigits s'' 0%Z 0 in
            if (n =? 0)%nat then 0%Z else (- e)%Z
        | String "+" s'' =>
            let '(e, n, _) := readDigits s'' 0%Z 0 in
            if (n =? 0)%nat then 0%Z else e
        | _ =>
            let '(e, n, _) := readDigits s' 0%Z 0 in
            if (n =? 0)%nat then 0%Z else e
        end
      else 0%Z
  | EmptyString => 0%Z
  end.

(** The double nearest to [m * 10^e], for [m] not negative. *)
Definition decimalToNumber (m e : Z) : float :=
  match m with
  | Zpos p =>
      if (0 <=? e)%Z then
        SF2Prim (binary_normalize prec emax (m * 10 ^ e)%Z 0%Z false)
      else
        SF2Prim (SFdiv prec emax
                   (S754_finite false p 0%Z)
                   (S754_finite false (Z.to_pos (10 ^ (- e))%Z) 0%Z))
  | _ => 0%float
  end.

Definition parseUnsigned (s : string) : float :=
  if prefix "Infinity" s then infinity
  else
    let '(ip, n1, r1) := readDigits s 0%Z 0 in
    let '(m, n2, r2) :=
      match r1 with
      | String "." r => readDigits r ip 0
      | _ => (ip, 0%nat, r1)
      end in
    if (n1 + n2 =? 0)%nat then nan
    else decimalToNumber m (readExponent r2 - Z.of_nat n2)%Z.

Definition parseFloatString (s : string) : float :=
  match skipWhiteSpace s with
  | String "-" s' => (- parseUnsigned s')%float
  | String "+" s' => parseUnsigned s'
  | s' => parseUnsigned s'
  end.

(** As a converter the function is given strings; any other value would
    first be turned into a string, which is not modelled. *)
Definition parseFloat (v : value) : value :=
  match v with
  | VString s => VNumber (parseFloatString s)
  | _ => VNumber nan
  end.

(** ** lodash's [camelCase], on ASCII names

    [camelCase] drops the apostrophes, splits the name into words, puts
    every word in lower case, the first letter of every word but the first
    in upper case, and joins them.  The words are those of lodash's
    [unicodeWords], whose pattern is, on ASCII characters: an optional
    capital followed by small letters; a run of capitals, without its last
    one when a small letter follows; an ordinal ([1st], [22ND], ...); a
    run of digits.  Every other character of ASCII separates words.  The
    characters beyond ASCII, among which lodash knows more letters, are
    not modelled and are read as separators. *)

Definition isLower (c : ascii) : bool :=
  ((97 <=? nat_of_ascii c) && (nat_of_ascii c <=? 122))%nat.

Definition isUpper (c : ascii) : bool :=
  ((65 <=? nat_of_ascii c) && (nat_of_ascii c <=? 90))%nat.

Definition toLower (c : ascii) : ascii :=
  if isUpper c then ascii_of_nat (nat_of_ascii c + 32) else c.

Definition toUpper (c : ascii) : ascii :=
  if isLower c then ascii_of_nat (nat_of_ascii c - 32) else c.

Fixpoint toLowerCase (s : string) : string :=
  match s with
  | String c s' => String (toLower c) (toLowerCase s')
  | EmptyString => EmptyString
  end.

Definition upperFirst (s : string) : string :=
  match s with
  | String c s' => String (toUpper c) s'
  | EmptyString => EmptyString
  end.

Definition capitalize (s : string) : string := upperFirst (toLowerCase s).

(** The longest prefix of [s] made of characters that satisfy [p], and
    what follows it. *)
Fixpoint span (p : ascii -> bool) (s : string) : string * string :=
  match s with
  | String c s' =>
      if p c then let '(w, r) := span p s' in (String c w, r)
      else (EmptyString, s)
  | EmptyString => (EmptyString, EmptyString)
  end.

(** A string without its last character, and that character. *)
Fixpoint unsnoc (c : ascii) (s : string) : string * ascii :=
  match s with
  | String c' s' => let '(w, l) := unsnoc c' s' in (String c w, l)
  | EmptyString => (EmptyString, c)
  end.

(** The suffix of an ordinal after a run of digits that ends with [d]:
    [1st], [2nd], [3rd] and [th] after another digit, all in small letters
    or all in capitals, and not followed by a letter of the same case or
    by a digit. *)
Definition ordinalSuffix (d : ascii) (r : string) : option (string * string) :=
  match r with
  | String a (String b r') =>
      let suffix := String a (String b EmptyString) in
      let fits (st nd rd th : string) :=
        if Ascii.eqb d "1" then String.eqb suffix st
        else if Ascii.eqb d "2" then String.eqb suffix nd
        else if Ascii.eqb d "3" then String.eqb suffix rd
        else String.eqb suffix th in
      let followed (p : ascii -> bool) :=
        match r' with
        | String c _ => p c || isDigit c
        | EmptyString => false
        end in
      if fits "ST" "ND" "RD" "TH" && negb (followed isUpper)
      then Some (suffix, r')
      else if fits "st" "nd" "rd" "th" && negb (followed isLower)
      then Some (suffix, r')
      else None
  | _ => None
  end.

(** The words of [s]; every step takes at least one character, so a
    [fuel] of the length of [s] is enough. *)
Fixpoint wordsFrom (fuel : nat) (s : string) : list string :=
  match fuel, s with
  | S fuel', String c rest =>
      if isLower c then
        let '(w, r) := span isLower s in
        w :: wordsFrom fuel' r
      else if isUpper c then
        let '(us, r) := span isUpper rest in
        match r with
        | String l _ =>
            if isLower l then
              match us with
              | EmptyString =>
                  let '(ls, r') := span isLower r in
                  String c ls :: wordsFrom fuel' r'
              | String u us' =>
                  let '(w, last) := unsnoc u us' in
                  String c w :: wordsFrom fuel' (String last r)
              end
            else String c us :: wordsFrom fuel' r
        | EmptyString => [String c us]
        end
      else if isDigit c then
        let '(ds, r) := span isDigit rest in
        let '(_, d) := unsnoc c ds in
        match ordinalSuffix d r with
        | Some (suffix, r') =>
            (String c ds ++ suffix)%string :: wordsFrom fuel' r'
        | None => String c ds :: wordsFrom fuel' r
        end
      else wordsFrom fuel' rest
  | _, _ => []
  end.

Fixpoint removeApostrophes (s : string) : string :=
  match s with
  | String c s' =>
      if Ascii.eqb c "'" then removeApostrophes s'
      else String c (removeApostrophes s')
  | EmptyString => EmptyString
  end.

Definition unicodeWords (s : string) : list string :=
  wordsFrom (String.length s) s.

Definition lodashCamelCase (key : string) : string :=
  match unicodeWords (removeApostrophes key) with
  | [] => EmptyString
  | word :: words =>
      fold_left (fun result word => (result ++ capitalize word)%string) words
                (toLowerCase word)
  end.

(** ** [ToString], where the examples need it

    The string of a primitive other than a number, and of an object whose
    [toString] is the one of [Object.prototype]; the [TypeError] of an
    object that has no function as [toString] and none, or that of
    [Object.prototype], as [valueOf]: an object without prototype, or an
    object read from the JSON text [{"toString": "x"}].  The strings of
    numbers, arrays and functions, and what another function would return
    as the string of an object, are not computed, and are read as empty. *)

Definition isCallable (v : value) : bool :=
  match v with VFunction _ => true | _ => false end.

Definition cannotConvert : exn :=
  TypeError "Cannot convert object to primitive value".

Definition exampleToString (v : value) : completion string :=
  match v with
  | VUndefined => Normal "undefined"
  | VNull => Normal "null"
  | VBool true => Normal "true"
  | VBool false => Normal "false"
  | VString s => Normal s
  | VNumber _ | VFunction _ | VArray _ | VArrayPrototype => Normal ""
  | VObject _ _ | VObjectPrototype =>
      if strictEquals (get v "toString")
                      (VFunction "Object.prototype.toString")
      then Normal "[object Object]"
      else if isCallable (get v "toString") then Normal ""
      else if strictEquals (get v "valueOf")
                           (VFunction "Object.prototype.valueOf")
      then Throw cannotConvert
      else if isCallable (get v "valueOf") then Normal ""
      else Throw cannotConvert
  end.

(** ** The agents and the values of the closed examples *)

(** A converter of strings that does not leave its own results alone. *)
Definition appendX (v : value) : value :=
  match v with
  | VString s => VString (s ++ "x")
  | _ => v
  end.

(** A converter of numbers that takes every number to zero. *)
Definition toZero (v : value) : value := VNumber 0.

(** An agent for articles, with a price read from a string and tags that
    may be [null], and an article. *)
Definition articleAgent : agent :=
  objectAgent
    [ ("title", stringAgent);
      ("tags", nullableAgent (arrayAgent stringAgent));
      ("price", conversionAgent stringAgent parseFloat numberAgent) ].

Definition article : value :=
  plain [ ("title", VString "t");
          ("tags", VArray [VString "a"; VString "b"]);
          ("price", VString "3.5") ].

(** An agent for the records of a service that writes its keys in snake
    case, with an age that may be [null] and is read from a string, and
    such a record. *)
Definition personAgent : agent :=
  unsnakeAgent
    (objectAgent
       [ ("firstName", stringAgent);
         ("age", nullableAgent
                   (conversionAgent stringAgent parseFloat numberAgent)) ]).

Definition person : value :=
  plain [("first_name", VString "Al"); ("age", VString "3.5")].

(** A record that only inherits its [title]. *)
Definition heir : value := VObject (plain [("title", VString "t")]) [].

(** A union of two conversions to numbers, each of which settles. *)
Definition zeroOrParsed : agent :=
  unionAgent (conversionAgent numberAgent toZero numberAgent)
             (conversionAgent stringAgent parseFloat numberAgent).

(** A union of two agents of plain data, and a record that holds, deep in
    an array, an object with a key named [constructor]. *)
Definition listOrRecord : agent :=
  unionAgent
    (objectAgent
       [ ("k", unionAgent
                 (arrayAgent (objectAgent [("a", numberAgent)]))
                 (objectAgent
                    [("0", objectAgent [("junk", objectAgent [])])]));
         ("z", stringAgent) ])
    (objectAgent [("k", objectAgent [])]).

Definition recordWithConstructor : value :=
  plain [ ("k", VArray [ plain [ ("a", VNumber 1);
                                 ("junk", plain [("constructor", VNumber 1)])
                               ] ]);
          ("z", VNumber 0) ].

(** A union whose left agent has a shape that declares [__proto__], and a
    record that holds an object without prototype and an object with an
    inherited property. *)
Definition protoShape : agent :=
  objectAgent [ ("p", objectAgent [("z", stringAgent)]);
                ("q", objectAgent [("__proto__", objectAgent [])]) ].

Definition protoOrRecord : agent :=
  unionAgent
    (objectAgent [ ("m", unionAgent protoShape protoShape);
                   ("j", objectAgent [("0", stringAgent)]) ])
    (objectAgent [("m", objectAgent [("q", objectAgent [])])]).

Definition recordWithoutPrototype : value :=
  plain [ ("m", plain [ ("p", VObject (plain [("z", VString "s")]) []);
                        ("q", VObject VNull []) ]);
          ("j", VArray [VString "q"]) ].

(** A union of two agents for the same record, read in snake case by one
    and half in camel case by the other. *)
Definition snakeOrCamel : agent :=
  unionAgent
    (unsnakeAgent
       (objectAgent [ ("fooBar", stringAgent);
                      ("y", objectAgent [("bC", numberAgent)]) ]))
    (objectAgent
       [ ("foo_bar", stringAgent);
         ("y", unsnakeAgent (objectAgent [("bC", numberAgent)])) ]).

Definition snakeRecord : value :=
  plain [ ("foo_bar", VString "a"); ("y", plain [("b_c", VNumber 1)]) ].

(** ** Induction on agents and on values *)

Section agent_induction.

Variable P : agent -> Prop.
Hypothesis HString : P StringAgent.
Hypothesis HNumber : P NumberAgent.
Hypothesis HBoolean : P BooleanAgent.
Hypothesis HNull : P NullAgent.
Hypothesis HUnion : forall u v, P u -> P v -> P (UnionAgent u v).
Hypothesis HArray : forall itemAgent, P itemAgent -> P (ArrayAgent itemAgent).
Hypothesis HEnum : forall enumObj, P (EnumAgent enumObj).
Hypothesis HObject :
  forall objShape, Forall (fun e => P (snd e)) objShape ->
                   P (ObjectAgent objShape).
Hypothesis HUnsnake : forall objAgent, P objAgent -> P (UnsnakeAgent objAgent).
Hypothesis HConversion :
  forall i c o, P i -> P o -> P (ConversionAgent i c o).

Fixpoint agent_ind (a : agent) : P a :=
  match a with
  | StringAgent => HString
  | NumberAgent => HNumber
  | BooleanAgent => HBoolean
  | NullAgent => HNull
  | UnionAgent u v => HUnion u v (agent_ind u) (agent_ind v)
  | ArrayAgent i => HArray i (agent_ind i)
  | EnumAgent e => HEnum e
  | ObjectAgent sh =>
      HObject sh
        ((fix all (entries : list (string * agent))
            : Forall (fun e => P (snd e)) entries :=
            match entries with
            | [] => Forall_nil _
            | e :: entries' => Forall_cons e (agent_ind (snd e)) (all entries')
            end) sh)
  | UnsnakeAgent o => HUnsnake o (agent_ind o)
  | ConversionAgent i c o => HConversion i c o (agent_ind i) (agent_ind o)
  end.

End agent_induction.

Section value_induction.

Variable P : value -> Prop.
Hypothesis HUndefined : P VUndefined.
Hypothesis HNullV : P VNull.
Hypothesis HBool : forall b, P (VBool b).
Hypothesis HNumberV : forall x, P (VNumber x).
Hypothesis HStringV : forall s, P (VString s).
Hypothesis HFunction : forall n, P (VFunction n).
Hypothesis HObjectPrototype : P VObjectPrototype.
Hypothesis HArrayPrototype : P VArrayPrototype.
Hypothesis HArrayV : forall items, Forall P items -> P (VArray items).
Hypothesis HObjectV :
  forall proto props, P proto -> Forall (fun p => P (snd p)) props ->
                      P (VObject proto props).

Fixpoint value_ind (v : value) : P v :=
  match v with
  | VUndefined => HUndefined
  | VNull => HNullV
  | VBool b => HBool b
  | VNumber x => HNumberV x
  | VString s => HStringV s
  | VFunction n => HFunction n
  | VObjectPrototype => HObjectPrototype
  | VArrayPrototype => HArrayPrototype
  | VArray items =>
      HArrayV items
        ((fix all (xs : list value) : Forall P xs :=
            match xs with
            | [] => Forall_nil _
            | x :: xs' => Forall_cons x (value_ind x) (all xs')
            end) items)
  | VObject proto props =>
      HObjectV proto props (value_ind proto)
        ((fix all (ps : list (string * value))
            : Forall (fun p => P (snd p)) ps :=
            match ps with
            | [] => Forall_nil _
            | p :: ps' => Forall_cons p (value_ind (snd p)) (all ps')
            end) props)
  end.

End value_induction.

(** ** The loops of the agents, as list functions *)

(** [xs.map(f)] with an [f] that may throw. *)
Fixpoint mapM {A B : Type} (f : A -> completion B) (xs : list A)
  : completion (list B) :=
  match xs with
  | [] => Normal []
  | x :: xs' =>
      y <- f x ;;
      ys <- mapM f xs' ;;
      Normal (y :: ys)
  end.

(** The test [ObjectAgent.verifyStamp] makes of one entry of the shape. *)
Definition verifyEntry (requested : value) (entry : string * agent) : bool :=
  if negb (hasProperty requested (fst entry)) then false
  else verifyStamp (snd entry) (get requested (fst entry)).

(** What [this.objShape[key]] reads. *)
Inductive shapeRead : Type :=
| ReadAgent (ag : agent)
| ReadInherited
| ReadUndefined.

Definition readShape (objShape : list (string * agent)) (key : string)
  : shapeRead :=
  match assoc key objShape with
  | Some ag => ReadAgent ag
  | None => if isObjectPrototypeName key then ReadInherited else ReadUndefined
  end.

(** The iteratee [ObjectAgent.makeStampable] gives to [mapValues]. *)
Definition stampField (camelCase : string -> string)
    (objShape : list (string * agent)) (val : value) (key : string)
  : completion value :=
  match readShape objShape key with
  | ReadUndefined => Normal val
  | ReadAgent ag => makeStampable camelCase ag val
  | ReadInherited => Throw notAFunction
  end.

Definition isNaNValue (v : value) : bool :=
  match v with VNumber x => isNaN x | _ => false end.

(** ** Plain data and the agents of plain data

    Plain data: primitives, arrays and ordinary objects none of whose own
    keys is the name of a member of [Object.prototype] (and, as in any
    object, no key twice).  An agent of plain data is made of the primitive
    agents and of [EnumAgent], [ArrayAgent], [ObjectAgent] and [UnionAgent],
    with shapes that declare no such key either. *)

Definition noPrototypeNames (keys : list string) : Prop :=
  forall k, In k keys -> isObjectPrototypeName k = false.

Fixpoint plainData (v : value) : Prop :=
  match v with
  | VUndefined | VNull | VBool _ | VNumber _ | VString _ => True
  | VArray items =>
      (fix all (xs : list value) : Prop :=
         match xs with
         | [] => True
         | x :: xs' => plainData x /\ all xs'
         end) items
  | VObject _ props =>
      NoDup (map fst props) /\ noPrototypeNames (map fst props)
      /\ (fix all (ps : list (string * value)) : Prop :=
            match ps with
            | [] => True
            | p :: ps' => plainData (snd p) /\ all ps'
            end) props
  | VFunction _ | VObjectPrototype | VArrayPrototype => False
  end.

Fixpoint plainAgent (a : agent) : Prop :=
  match a with
  | StringAgent | NumberAgent | BooleanAgent | NullAgent | EnumAgent _ => True
  | UnionAgent u v => plainAgent u /\ plainAgent v
  | ArrayAgent itemAgent => plainAgent itemAgent
  | ObjectAgent objShape =>
      NoDup (map fst objShape) /\ noPrototypeNames (map fst objShape)
      /\ (fix all (entries : list (string * agent)) : Prop :=
            match entries with
            | [] => True
            | e :: entries' => plainAgent (snd e) /\ all entries'
            end) objShape
  | UnsnakeAgent _ | ConversionAgent _ _ _ => False
  end.

(** Two property lists with the same keys, in the same order, and values
    related key by key. *)
Definition sameKey {A B : Type} (R : string -> A -> B -> Prop)
    (p : string * A) (q : string * B) : Prop :=
  fst p = fst q /\ R (fst p) (snd p) (snd q).

(** [objectified x w]: [w] is [x] where some arrays and objects, at any
    depth, have been replaced by the plain objects of their own enumerable
    properties: what the [mapValues] of [ObjectAgent.makeStampable] does. *)
#[local] Unset Elimination Schemes.

Inductive objectified : value -> value -> Prop :=
| objectified_same x : objectified x x
| objectified_array xs ws :
    Forall2 objectified xs ws -> objectified (VArray xs) (VArray ws)
| objectified_plain x qs :
    notAnObject x = false ->
    Forall2 (sameKey (fun _ => objectified)) (ownEnumerable x) qs ->
    objectified x (plain qs).

#[local] Set Elimination Schemes.


(** ** Where [makeStampable] settles

    [settlesAt a x] follows [makeStampable a x] and asks, of every step
    that could undo on a second run what it did on the first:

    - of a [ConversionAgent] given a value of the input type, that the
      converted value is no longer of the input type, or that the
      converter leaves it alone;
    - of an [UnsnakeAgent], that it is over an [ObjectAgent], as its
      constructor is typed, and that [camelCase] leaves alone what it makes
      of each key of the object;
    - of a [UnionAgent] whose left agent cannot stamp the value and whose
      right agent can, that the left agent cannot stamp what the right one
      made of the value either, or leaves it alone.

    Of the agents that did not run it asks nothing. *)

(** The agents that inherit the [makeStampable] of [BaseAgent]. *)
Definition inheritsMakeStampable (a : agent) : bool :=
  match a with
  | StringAgent | NumberAgent | BooleanAgent | NullAgent | EnumAgent _ => true
  | _ => false
  end.

Definition leftKeeps (camelCase : string -> string) (u : agent) (w : value)
  : Prop :=
  canStamp camelCase u w = Normal false
  \/ makeStampable camelCase u w = Normal w.

Fixpoint settlesAt (camelCase : string -> string) (a : agent) (x : value)
    {struct a} : Prop :=
  match a with
  | StringAgent | NumberAgent | BooleanAgent | NullAgent | EnumAgent _ => True
  | UnionAgent u v =>
      match canStamp camelCase u x with
      | Normal true => settlesAt camelCase u x
      | Normal false =>
          match canStamp camelCase v x with
          | Normal true =>
              settlesAt camelCase v x
              /\ (forall w, makeStampable camelCase v x = Normal w ->
                            leftKeeps camelCase u w)
          | _ => True
          end
      | Throw _ => True
      end
  | ArrayAgent itemAgent => Forall (settlesAt camelCase itemAgent) (elements x)
  | ObjectAgent objShape =>
      (fix all (entries : list (string * agent)) : Prop :=
         match entries with
         | [] => True
         | (property, ag) :: entries' =>
             (forall val, In (property, val) (ownEnumerable x) ->
                          settlesAt camelCase ag val)
             /\ all entries'
         end) objShape
  | UnsnakeAgent objAgent =>
      match objAgent with
      | ObjectAgent _ =>
          (forall key, In key (map fst (ownEnumerable x)) ->
                       camelCase (camelCase key) = camelCase key)
          /\ settlesAt camelCase objAgent
               (mapKeys x (fun _ key => camelCase key))
      | _ => False
      end
  | ConversionAgent inputAgent converter _ =>
      verifyStamp inputAgent x = true ->
      verifyStamp inputAgent (converter x) = true ->
      converter (converter x) = converter x
  end.

(** ** Classes of agents *)

(** Is the agent a [ConversionAgent], the one class with a [stamp] of its
    own. *)
Definition isConversionAgent (a : agent) : bool :=
  match a with ConversionAgent _ _ _ => true | _ => false end.

(** Agents that inherit [makeStampable] from [BaseAgent], and unions and
    arrays of them. *)
Fixpoint passive (a : agent) : Prop :=
  match a with
  | StringAgent | NumberAgent | BooleanAgent | NullAgent | EnumAgent _ => True
  | UnionAgent u v => passive u /\ passive v
  | ArrayAgent itemAgent => passive itemAgent
  | ObjectAgent _ | UnsnakeAgent _ | ConversionAgent _ _ _ => False
  end.

(** Does the agent hold a [ConversionAgent], and with it a function of the
    user of the library. *)
Fixpoint callsConverter (a : agent) : bool :=
  match a with
  | ConversionAgent _ _ _ => true
  | UnionAgent u v => callsConverter u || callsConverter v
  | ArrayAgent itemAgent => callsConverter itemAgent
  | ObjectAgent objShape =>
      (fix any (entries : list (string * agent)) : bool :=
         match entries with
         | [] => false
         | e :: entries' => callsConverter (snd e) || any entries'
         end) objShape
  | UnsnakeAgent objAgent => callsConverter objAgent
  | _ => false
  end.

(** A property list with every key sent through [f]. *)
Definition renameKeys (f : string -> string) (ps : list (string * value))
  : list (string * value) :=
  map (fun kv => (f (fst kv), snd kv)) ps.

(** ** Unfolding the methods *)

Section Contracts.

Variable camelCase : string -> string.
Variable ToString : value -> completion string.

Lemma bind_Normal {A B : Type} (c : completion A) (k : A -> completion B)
    (b : B) :
  bind c k = Normal b -> exists a, c = Normal a /\ k a = Normal b.
Proof.
  destruct c as [a | e]; simpl; intros H.
  - exists a. split; [reflexivity | exact H].
  - discriminate H.
Qed.

(** From [bind c k = Normal b], the value of [c] and the equation on it. *)
Ltac bind_inv H a Ha :=
  apply bind_Normal in H; destruct H as [a [Ha H]].

(** Induction on the agent, one case per class. *)
Ltac agent_induction a :=
  induction a as [| | | | u v IHu IHv | itemAgent IHitem | enumObj
                  | objShape IHshape | objAgent IHobj | i c o IHi IHo]
    using agent_ind.

Lemma mapProps_ext (f g : value -> string -> completion value) ps :
  (forall v k, f v k = g v k) -> mapProps f ps = mapProps g ps.
Proof.
  intros Hfg. induction ps as [| [k v] ps IH]; simpl.
  - reflexivity.
  - rewrite Hfg, IH. reflexivity.
Qed.

Lemma verifyStamp_ObjectAgent objShape requested :
  verifyStamp (ObjectAgent objShape) requested =
  if notAnObject requested then false
  else forallb (verifyEntry requested) objShape.
Proof.
  simpl. destruct (notAnObject requested); [reflexivity |].
  induction objShape as [| [property ag] entries IH]; simpl.
  - reflexivity.
  - rewrite IH. reflexivity.
Qed.

Lemma makeStampable_ArrayAgent itemAgent requested :
  makeStampable camelCase (ArrayAgent itemAgent) requested =
  if negb (isArray requested) then Normal requested
  else items <- mapM (makeStampable camelCase itemAgent) (elements requested) ;;
       Normal (VArray items).
Proof.
  simpl. destruct (isArray requested); simpl; [| reflexivity].
  f_equal. induction (elements requested) as [| x xs IH]; simpl.
  - reflexivity.
  - rewrite IH. reflexivity.
Qed.

Lemma makeStampable_ObjectAgent objShape requested :
  makeStampable camelCase (ObjectAgent objShape) requested =
  if notAnObject requested then Normal (VBool false)
  else mapValues requested (stampField camelCase objShape).
Proof.
  simpl. destruct (notAnObject requested); [reflexivity |].
  unfold mapValues. f_equal. apply mapProps_ext. intros v k.
  unfold stampField, readShape.
  induction objShape as [| [property ag] entries IH]; simpl.
  - destruct (isObjectPrototypeName k); reflexivity.
  - destruct (String.eqb property k); [reflexivity | exact IH].
Qed.

Lemma sameValueZero_strictEquals x y :
  sameValueZero x y = strictEquals x y || (isNaNValue x && isNaNValue y).
Proof.
  destruct x, y; simpl; try reflexivity;
    rewrite ?orb_false_r, ?andb_false_r, ?orb_false_r; reflexivity.
Qed.

Lemma findProperty_receiver r1 r2 o k :
  match findProperty r1 o k with Some _ => true | None => false end =
  match findProperty r2 o k with Some _ => true | None => false end.
Proof.
  assert (HO : forall r r',
             match findInObjectPrototype r k with
             | Some _ => true | None => false end =
             match findInObjectPrototype r' k with
             | Some _ => true | None => false end).
  { intros r r'. unfold findInObjectPrototype.
    destruct (String.eqb k "__proto__"); [reflexivity |].
    destruct (isObjectPrototypeName k); reflexivity. }
  assert (HA : forall r r',
             match findInArrayPrototype r k with
             | Some _ => true | None => false end =
             match findInArrayPrototype r' k with
             | Some _ => true | None => false end).
  { intros r r'. unfold findInArrayPrototype.
    destruct (String.eqb k "length"); [reflexivity |].
    destruct (existsb (String.eqb k) ArrayPrototypeNames); [reflexivity |].
    apply HO. }
  induction o using value_ind; simpl; try reflexivity.
  - apply HO.
  - apply HA.
  - destruct (findInArray items k); [reflexivity | apply HA].
  - destruct (assoc k props); [reflexivity | exact IHo].
Qed.

(** The [in] operator: an own property, or a property of the prototype. *)
Lemma hasProperty_chain data property :
  hasProperty data property =
  hasOwnProperty data property || hasProperty (prototypeOf data) property.
Proof.
  assert (HO : forall r,
             match findInObjectPrototype r property with
             | Some _ => true | None => false end =
             isObjectPrototypeName property).
  { intros r. unfold findInObjectPrototype.
    destruct (String.eqb property "__proto__") eqn:E.
    - apply String.eqb_eq in E. subst property. reflexivity.
    - destruct (isObjectPrototypeName property); reflexivity. }
  assert (HA : forall r,
             match findInArrayPrototype r property with
             | Some _ => true | None => false end =
             (String.eqb property "length"
              || existsb (String.eqb property) ArrayPrototypeNames)
             || isObjectPrototypeName property).
  { intros r. unfold findInArrayPrototype.
    destruct (String.eqb property "length"); [reflexivity |].
    destruct (existsb (String.eqb property) ArrayPrototypeNames);
      [reflexivity | apply HO]. }
  unfold hasProperty.
  destruct data;
    cbn [findProperty hasOwnProperty prototypeOf orb]; try reflexivity.
  - rewrite HO, orb_false_r. reflexivity.
  - rewrite !HA, !HO. reflexivity.
  - destruct (findInArray items property); [reflexivity |].
    rewrite !HA. reflexivity.
  - destruct (assoc property props); [reflexivity |].
    apply (findProperty_receiver (VObject data props) data data property).
Qed.

(** ** The contracts of the agents *)

Local Abbreviation makeStampable' := (makeStampable camelCase).
Local Abbreviation canStamp' := (canStamp camelCase).
Local Abbreviation stamp' := (stamp camelCase ToString).

(** C1: [stamp] of a [ConversionAgent] tests the raw value with the
    [verifyStamp] of the input agent; when the test passes it returns the
    converted value, whatever the output agent is, and otherwise it throws.
    With [parseFloat] between strings and numbers, ["3.5"] is stamped as
    the number 3.5 and the number 3.5 is refused.  The test is
    [verifyStamp], not [canStamp]: a value the input agent could stamp but
    that is not yet of its type is refused too. *)
Theorem conversionAgent_stamp :
  (forall inputAgent converter outputAgent requested,
      stamp' (conversionAgent inputAgent converter outputAgent) requested =
      if verifyStamp inputAgent requested then Normal (converter requested)
      else Throw (cannotBeStamped ToString requested))
  /\ stamp' (conversionAgent stringAgent parseFloat numberAgent)
            (VString "3.5") = Normal (VNumber 3.5)
  /\ stamp' (conversionAgent stringAgent parseFloat numberAgent)
            (VNumber 3.5) = Throw (cannotBeStamped ToString (VNumber 3.5))
  /\ (let inner := conversionAgent stringAgent parseFloat numberAgent in
      canStamp' inner (VString "3.5") = Normal true
      /\ verifyStamp inner (VString "3.5") = false
      /\ stamp' (conversionAgent inner (fun v => v) numberAgent)
                (VString "3.5")
         = Throw (cannotBeStamped ToString (VString "3.5"))).
Proof.
  split; [| repeat split].
  intros inputAgent converter outputAgent requested. reflexivity.
Qed.

(** C2, as the code has it: an [ObjectAgent] refuses a value that has no
    property, own or inherited, for some key of its shape; [hasProperty] is
    the [in] operator, true of an own property and of a property of the
    prototype. *)
Theorem objectAgent_verifyStamp_property :
  (forall objShape requested property ag,
      In (property, ag) objShape ->
      hasProperty requested property = false ->
      verifyStamp (objectAgent objShape) requested = false)
  /\ (forall data property,
         hasProperty data property =
         hasOwnProperty data property
         || hasProperty (prototypeOf data) property).
Proof.
  split; [| exact hasProperty_chain].
  intros objShape requested property ag Hin Hno.
  unfold objectAgent. rewrite verifyStamp_ObjectAgent.
  destruct (notAnObject requested); [reflexivity |].
  apply not_true_is_false. intros Hall.
  rewrite forallb_forall in Hall. specialize (Hall _ Hin).
  unfold verifyEntry in Hall. simpl in Hall. rewrite Hno in Hall.
  discriminate Hall.
Qed.

(** C3, on the code: the [makeStampable] of an [ObjectAgent] turns a
    string into [false], where those of [ArrayAgent] and [UnsnakeAgent],
    behind the same kind of test, give the value back. *)
Theorem objectAgent_makeStampable_string :
  forall objShape itemAgent,
    makeStampable' (objectAgent objShape) (VString "abc")
    = Normal (VBool false)
    /\ makeStampable' (arrayAgent itemAgent) (VString "abc")
       = Normal (VString "abc")
    /\ makeStampable' (unsnakeAgent (objectAgent objShape)) (VString "abc")
       = Normal (VString "abc").
Proof.
  intros objShape itemAgent. repeat split.
Qed.

(** C5: for every agent, [canStamp] is [makeStampable] followed by
    [verifyStamp]; it says yes exactly when [makeStampable] returns a value
    that [verifyStamp] takes. *)
Theorem canStamp_makeStampable_verifyStamp :
  forall a requested,
    canStamp' a requested
    = (stampable <- makeStampable' a requested ;;
       Normal (verifyStamp a stampable))
    /\ (canStamp' a requested = Normal true <->
        exists stampable,
          makeStampable' a requested = Normal stampable
          /\ verifyStamp a stampable = true).
Proof.
  intros a requested. split; [reflexivity |].
  unfold canStamp, BaseAgent_canStamp. split.
  - intros H. apply bind_Normal in H. destruct H as [s [Hs Hv]].
    exists s. split; [exact Hs | congruence].
  - intros [s [Hs Hv]]. rewrite Hs. simpl. rewrite Hv. reflexivity.
Qed.

(** C6, on the code: the [makeStampable] of a [UnionAgent] is that of the
    left agent when the left agent can stamp the value, otherwise that of
    the right agent when the right agent can, otherwise the value itself,
    as long as no [canStamp] throws; when the [canStamp] of the left agent
    throws, the union throws, whatever the right agent would do.  So it is
    on the object read from the JSON text [{"constructor": "Ferrari"}]:
    the right agent can stamp it and leaves it as it is, the left agent
    throws a [TypeError], and so does the union, which stamps the object
    once the two agents are exchanged. *)
Theorem unionAgent_makeStampable_throws :
  (forall leftType rightType requested,
      makeStampable' (unionAgent leftType rightType) requested =
      match canStamp' leftType requested with
      | Throw e => Throw e
      | Normal true => makeStampable' leftType requested
      | Normal false =>
          match canStamp' rightType requested with
          | Throw e => Throw e
          | Normal true => makeStampable' rightType requested
          | Normal false => Normal requested
          end
      end)
  /\ (let leftType := objectAgent [("team", stringAgent)] in
      let rightType := objectAgent [("constructor", stringAgent)] in
      let requested := plain [("constructor", VString "Ferrari")] in
      canStamp' leftType requested = Throw notAFunction
      /\ canStamp' rightType requested = Normal true
      /\ makeStampable' rightType requested = Normal requested
      /\ makeStampable' (unionAgent leftType rightType) requested
         = Throw notAFunction
      /\ canStamp' (unionAgent leftType rightType) requested
         = Throw notAFunction
      /\ makeStampable' (unionAgent rightType leftType) requested
         = Normal requested).
Proof.
  split; [| repeat split].
  intros leftType rightType requested. simpl. unfold canStamp.
  destruct (BaseAgent_canStamp (makeStampable' leftType)
              (verifyStamp leftType) requested) as [[|] | e];
    reflexivity.
Qed.

(** C7: an [ArrayAgent] refuses what is not an array, and takes an array
    exactly when its item agent takes every element; it takes the empty
    array. *)
Theorem arrayAgent_verifyStamp :
  forall itemAgent,
    (forall requested,
        verifyStamp (arrayAgent itemAgent) requested =
        isArray requested
        && forallb (verifyStamp itemAgent) (elements requested))
    /\ (forall items,
           verifyStamp (arrayAgent itemAgent) (VArray items) = true <->
           (forall x, In x items -> verifyStamp itemAgent x = true))
    /\ verifyStamp (arrayAgent itemAgent) (VArray []) = true.
Proof.
  intros itemAgent. split; [| split].
  - intros requested. simpl. destruct (isArray requested); reflexivity.
  - intros items. simpl. apply forallb_forall.
  - reflexivity.
Qed.

(** C8, as the code has it: an [EnumAgent] takes a value exactly when
    [includes] finds it among the values of the enum object, whatever the
    keys are: when it is [===] to one of them, or when it is [NaN] and so
    is one of them. *)
Theorem enumAgent_verifyStamp :
  forall enumObj requested,
    verifyStamp (enumAgent enumObj) requested
    = existsb (fun member => sameValueZero member requested)
              (ObjectValues enumObj)
    /\ (verifyStamp (enumAgent enumObj) requested = true <->
        exists member,
          In member (ObjectValues enumObj)
          /\ (strictEquals member requested = true
              \/ (isNaNValue member = true /\ isNaNValue requested = true))).
Proof.
  intros enumObj requested. split; [reflexivity |].
  simpl. unfold includes. rewrite existsb_exists.
  split; intros [member [Hin H]]; exists member; (split; [exact Hin |]).
  - rewrite sameValueZero_strictEquals in H.
    apply orb_true_iff in H. destruct H as [H | H]; [left; exact H |].
    right. apply andb_true_iff in H. exact H.
  - rewrite sameValueZero_strictEquals. apply orb_true_iff.
    destruct H as [H | [H1 H2]]; [left; exact H |].
    right. rewrite H1, H2. reflexivity.
Qed.

(** C9, on the code: on an object read from the JSON text
    [{"constructor": 1}], the [makeStampable] of an [ObjectAgent] whose
    shape does not declare the key throws a [TypeError], and so do its
    [canStamp] and its [stamp]. *)
Theorem objectAgent_makeStampable_throws :
  let requested := plain [("constructor", VNumber 1)] in
  makeStampable' (objectAgent [("title", stringAgent)]) requested
  = Throw notAFunction
  /\ canStamp' (objectAgent [("title", stringAgent)]) requested
     = Throw notAFunction
  /\ stamp' (objectAgent [("title", stringAgent)]) requested
     = Throw notAFunction.
Proof.
  repeat split.
Qed.

(** C10: a [ConversionAgent] can stamp, by [canStamp], every value that
    its output agent takes and its input agent does not, and its [stamp]
    throws on it; so it is with the number 3.5 and the conversion from
    strings to numbers. *)
Theorem conversionAgent_canStamp_but_stamp_throws :
  (forall inputAgent converter outputAgent requested,
      verifyStamp outputAgent requested = true ->
      verifyStamp inputAgent requested = false ->
      canStamp' (conversionAgent inputAgent converter outputAgent) requested
      = Normal true
      /\ stamp' (conversionAgent inputAgent converter outputAgent) requested
         = Throw (cannotBeStamped ToString requested))
  /\ (let a := conversionAgent stringAgent parseFloat numberAgent in
      canStamp' a (VNumber 3.5) = Normal true
      /\ stamp' a (VNumber 3.5)
         = Throw (cannotBeStamped ToString (VNumber 3.5))).
Proof.
  split; [| split; reflexivity].
  intros inputAgent converter outputAgent requested Hout Hin.
  unfold canStamp, BaseAgent_canStamp. simpl.
  rewrite Hin. simpl. rewrite Hout. split; reflexivity.
Qed.

(** ** Loops and property lists *)

Lemma mapM_settled {A : Type} (f : A -> completion A) xs :
  Forall (fun x => forall w, f x = Normal w -> f w = Normal w) xs ->
  forall ys, mapM f xs = Normal ys -> mapM f ys = Normal ys.
Proof.
  induction 1 as [| x xs Hx _ IH]; simpl; intros ys Hys.
  - injection Hys as <-. reflexivity.
  - bind_inv Hys y Hy.
    apply bind_Normal in Hys. destruct Hys as [ys' [Hys' Hys]].
    injection Hys as <-. simpl.
    rewrite (Hx _ Hy). simpl. rewrite (IH _ Hys'). reflexivity.
Qed.

Lemma mapProps_settled (f : value -> string -> completion value) ps :
  Forall (fun p => forall w, f (snd p) (fst p) = Normal w ->
                             f w (fst p) = Normal w) ps ->
  forall qs, mapProps f ps = Normal qs -> mapProps f qs = Normal qs.
Proof.
  induction 1 as [| [k v] ps Hp _ IH]; simpl; intros qs Hqs.
  - injection Hqs as <-. reflexivity.
  - apply bind_Normal in Hqs. destruct Hqs as [v' [Hv' Hqs]].
    apply bind_Normal in Hqs. destruct Hqs as [qs' [Hqs' Hqs]].
    injection Hqs as <-. simpl in *.
    rewrite (Hp _ Hv'). simpl. rewrite (IH _ Hqs'). reflexivity.
Qed.

Lemma mapProps_keys (f : value -> string -> completion value) ps qs :
  mapProps f ps = Normal qs -> map fst qs = map fst ps.
Proof.
  revert qs. induction ps as [| [k v] ps IH]; simpl; intros qs Hqs.
  - injection Hqs as <-. reflexivity.
  - apply bind_Normal in Hqs. destruct Hqs as [v' [Hv' Hqs]].
    apply bind_Normal in Hqs. destruct Hqs as [qs' [Hqs' Hqs]].
    injection Hqs as <-. simpl. rewrite (IH _ Hqs'). reflexivity.
Qed.

Lemma assoc_In {A : Type} k (ps : list (string * A)) x :
  assoc k ps = Some x -> In (k, x) ps.
Proof.
  induction ps as [| [k' v] ps IH]; simpl; [discriminate |].
  destruct (String.eqb k' k) eqn:E.
  - intros H. injection H as <-. apply String.eqb_eq in E. subst k'.
    left. reflexivity.
  - intros H. right. exact (IH H).
Qed.

Lemma settlesAt_ObjectAgent objShape x :
  settlesAt camelCase (ObjectAgent objShape) x <->
  Forall (fun e => forall val, In (fst e, val) (ownEnumerable x) ->
                               settlesAt camelCase (snd e) val) objShape.
Proof.
  simpl. induction objShape as [| [k ag] entries IH].
  - split; [constructor | trivial].
  - split.
    + intros [H1 H2]. constructor; [exact H1 | apply IH; exact H2].
    + intros H. inversion H; subst. split; [assumption | apply IH; assumption].
Qed.

Lemma existsb_eqb_In k ks :
  existsb (String.eqb k) ks = true <-> In k ks.
Proof.
  rewrite existsb_exists. split.
  - intros [x [Hin E]]. apply String.eqb_eq in E. subst x. exact Hin.
  - intros Hin. exists k. split; [exact Hin | apply String.eqb_refl].
Qed.

Lemma assoc_None {A : Type} k (ps : list (string * A)) :
  ~ In k (map fst ps) -> assoc k ps = None.
Proof.
  induction ps as [| [k' v] ps IH]; simpl; intros H; [reflexivity |].
  destruct (String.eqb k' k) eqn:E.
  - apply String.eqb_eq in E. exfalso. apply H. left. exact E.
  - apply IH. intros Hin. apply H. right. exact Hin.
Qed.

Lemma assoc_Some_key {A : Type} k (ps : list (string * A)) x :
  assoc k ps = Some x -> In k (map fst ps).
Proof.
  intros H. apply assoc_In in H. apply (in_map fst) in H. exact H.
Qed.

(** *** The order of the properties *)

Lemma keyBefore_asym k k' : keyBefore k k' = true -> keyBefore k' k = false.
Proof.
  unfold keyBefore.
  destruct (arrayIndex k) as [n |], (arrayIndex k') as [n' |];
    try discriminate; try reflexivity.
  intros H. apply Z.ltb_lt in H. apply Z.ltb_ge. lia.
Qed.

Lemma keyBefore_after k k' b :
  keyBefore k k' = true -> keyBefore b k' = false -> keyBefore b k = false.
Proof.
  unfold keyBefore.
  destruct (arrayIndex k) as [n |], (arrayIndex k') as [n' |],
           (arrayIndex b) as [m |];
    try discriminate; try reflexivity.
  intros H1 H2. apply Z.ltb_lt in H1. apply Z.ltb_ge in H2.
  apply Z.ltb_ge. lia.
Qed.

Lemma inPropertyOrder_cons k ks :
  inPropertyOrder (k :: ks) = true <->
  (forall k', In k' ks -> keyBefore k' k = false)
  /\ inPropertyOrder ks = true.
Proof.
  simpl. rewrite andb_true_iff, forallb_forall. split.
  - intros [H1 H2]. split; [| exact H2].
    intros k' Hk'. apply negb_true_iff. exact (H1 k' Hk').
  - intros [H1 H2]. split; [| exact H2].
    intros k' Hk'. apply negb_true_iff. exact (H1 k' Hk').
Qed.

Lemma inPropertyOrder_app ks k ks' :
  inPropertyOrder (ks ++ k :: ks') = true ->
  (forall k', In k' ks -> keyBefore k k' = false)
  /\ inPropertyOrder (ks ++ [k]) = true.
Proof.
  induction ks as [| a ks IH]; intros H.
  - split; [intros k' [] | reflexivity].
  - change ((a :: ks) ++ k :: ks') with (a :: (ks ++ k :: ks')) in H.
    apply inPropertyOrder_cons in H. destruct H as [Ha H].
    destruct (IH H) as [IH1 IH2]. split.
    + intros k' [<- | Hk']; [| exact (IH1 k' Hk')].
      apply Ha. apply in_or_app. right. left. reflexivity.
    + change ((a :: ks) ++ [k]) with (a :: (ks ++ [k])).
      apply inPropertyOrder_cons. split; [| exact IH2].
      intros k' Hk'. apply Ha. apply in_app_or in Hk'.
      apply in_or_app. destruct Hk' as [Hk' | [<- | []]];
        [left; exact Hk' | right; left; reflexivity].
Qed.

Lemma replaceValue_keys ps k v :
  map fst (replaceValue ps k v) = map fst ps.
Proof.
  induction ps as [| [k' v'] ps IH]; simpl; [reflexivity |].
  destruct (String.eqb k' k); simpl; [reflexivity | rewrite IH; reflexivity].
Qed.

Lemma insertKey_In ps k v x :
  In x (map fst (insertKey ps k v)) <-> x = k \/ In x (map fst ps).
Proof.
  induction ps as [| [k' v'] ps IH]; simpl.
  - split; [intros [H | []]; left; symmetry; exact H |].
    intros [H | []]. left. symmetry. exact H.
  - destruct (keyBefore k k'); simpl.
    + split; [intros [H | H]; [left; symmetry; exact H | right; exact H] |].
      intros [H | H]; [left; symmetry; exact H | right; exact H].
    + rewrite IH. split.
      * intros [H | [H | H]];
          [right; left; exact H | left; exact H | right; right; exact H].
      * intros [H | [H | H]];
          [right; left; exact H | left; exact H | right; right; exact H].
Qed.

Lemma insertKey_NoDup ps k v :
  ~ In k (map fst ps) -> NoDup (map fst ps) ->
  NoDup (map fst (insertKey ps k v)).
Proof.
  induction ps as [| [k' v'] ps IH]; simpl; intros Hk Hnd.
  - constructor; [intros [] | constructor].
  - destruct (keyBefore k k'); simpl.
    + constructor; [exact Hk | exact Hnd].
    + inversion Hnd as [| ? ? Hk' Hnd']; subst. constructor.
      * rewrite insertKey_In. intros [E | Hin]; [| exact (Hk' Hin)].
        apply Hk. left. exact E.
      * apply IH; [| exact Hnd']. intros Hin. apply Hk. right. exact Hin.
Qed.

Lemma insertKey_order ps k v :
  inPropertyOrder (map fst ps) = true ->
  inPropertyOrder (map fst (insertKey ps k v)) = true.
Proof.
  induction ps as [| [k' v'] ps IH]; intros Hord.
  - reflexivity.
  - change (map fst ((k', v') :: ps)) with (k' :: map fst ps) in Hord.
    apply inPropertyOrder_cons in Hord. destruct Hord as [Hk' Hord].
    simpl. destruct (keyBefore k k') eqn:E.
    + change (inPropertyOrder (k :: k' :: map fst ps) = true).
      apply inPropertyOrder_cons. split.
      * intros b [<- | Hb]; [exact (keyBefore_asym _ _ E) |].
        exact (keyBefore_after k k' b E (Hk' b Hb)).
      * apply inPropertyOrder_cons. split; assumption.
    + change (inPropertyOrder (k' :: map fst (insertKey ps k v)) = true).
      apply inPropertyOrder_cons. split; [| exact (IH Hord)].
      intros b Hb. apply insertKey_In in Hb.
      destruct Hb as [-> | Hb]; [exact E | exact (Hk' b Hb)].
Qed.

Lemma insertKey_last ps k v :
  (forall k', In k' (map fst ps) -> keyBefore k k' = false) ->
  insertKey ps k v = ps ++ [(k, v)].
Proof.
  induction ps as [| [k' v'] ps IH]; simpl; intros H; [reflexivity |].
  rewrite (H k' (or_introl eq_refl)). rewrite IH; [reflexivity |].
  intros b Hb. apply H. right. exact Hb.
Qed.

Lemma assign_In ps k v x :
  In x (map fst (assign ps k v)) <-> x = k \/ In x (map fst ps).
Proof.
  unfold assign. destruct (assoc k ps) as [y |] eqn:E.
  - rewrite replaceValue_keys. apply assoc_Some_key in E.
    split; [intros H; right; exact H | intros [-> | H]; assumption].
  - apply insertKey_In.
Qed.

Lemma assign_NoDup ps k v :
  NoDup (map fst ps) -> NoDup (map fst (assign ps k v)).
Proof.
  unfold assign. intros Hnd. destruct (assoc k ps) as [y |] eqn:E.
  - rewrite replaceValue_keys. exact Hnd.
  - apply insertKey_NoDup; [| exact Hnd].
    intros Hin. apply existsb_eqb_In in Hin.
    clear - E Hin. induction ps as [| [k' v'] ps IH]; simpl in *;
      [discriminate Hin |].
    rewrite (String.eqb_sym k k') in Hin.
    destruct (String.eqb k' k); [discriminate E |]. exact (IH E Hin).
Qed.

Lemma assign_order ps k v :
  inPropertyOrder (map fst ps) = true ->
  inPropertyOrder (map fst (assign ps k v)) = true.
Proof.
  unfold assign. intros Hord. destruct (assoc k ps).
  - rewrite replaceValue_keys. exact Hord.
  - apply insertKey_order. exact Hord.
Qed.

Lemma assign_last ps k v :
  ~ In k (map fst ps) ->
  (forall k', In k' (map fst ps) -> keyBefore k k' = false) ->
  assign ps k v = ps ++ [(k, v)].
Proof.
  intros Hk Hlast. unfold assign. rewrite (assoc_None k ps Hk).
  apply insertKey_last. exact Hlast.
Qed.

(** What [mapKeys] builds is a property list: no key twice, the keys in
    the order of the properties, each of them the new name of a key. *)
Lemma mapKeys_fold_keys (f : string -> string) ps acc :
  NoDup (map fst acc) -> inPropertyOrder (map fst acc) = true ->
  let r := fold_left (fun acc kv => assign acc (f (fst kv)) (snd kv)) ps acc in
  NoDup (map fst r) /\ inPropertyOrder (map fst r) = true
  /\ (forall k, In k (map fst r) ->
                In k (map fst acc) \/ In k (map f (map fst ps))).
Proof.
  revert acc. induction ps as [| [k v] ps IH]; simpl; intros acc Hnd Hord.
  - split; [exact Hnd |]. split; [exact Hord |]. intros k' H. left. exact H.
  - destruct (IH (assign acc (f k) v) (assign_NoDup _ _ _ Hnd)
                (assign_order _ _ _ Hord)) as [H1 [H2 H3]].
    split; [exact H1 |]. split; [exact H2 |].
    intros k' Hk'. destruct (H3 k' Hk') as [H | H].
    + apply assign_In in H. destruct H as [-> | H];
        [right; left; reflexivity | left; exact H].
    + right. right. exact H.
Qed.

(** Keys that are new, distinct and in the order of the properties are
    added one after the other. *)
Lemma mapKeys_fold_rename (f : string -> string) ps acc :
  NoDup (map fst acc ++ map f (map fst ps)) ->
  inPropertyOrder (map fst acc ++ map f (map fst ps)) = true ->
  fold_left (fun acc kv => assign acc (f (fst kv)) (snd kv)) ps acc
  = acc ++ renameKeys f ps.
Proof.
  revert acc. induction ps as [| [k v] ps IH]; simpl; intros acc Hnd Hord.
  - rewrite app_nil_r. reflexivity.
  - rewrite assign_last.
    + rewrite IH.
      * rewrite <- app_assoc. reflexivity.
      * rewrite map_app. simpl. rewrite <- app_assoc. exact Hnd.
      * rewrite map_app. simpl. rewrite <- app_assoc. exact Hord.
    + intros Hin. apply NoDup_remove_2 in Hnd. apply Hnd.
      apply in_or_app. left. exact Hin.
    + exact (proj1 (inPropertyOrder_app _ _ _ Hord)).
Qed.

Lemma renameKeys_fixed (f : string -> string) ps :
  (forall k, In k (map fst ps) -> f k = k) -> renameKeys f ps = ps.
Proof.
  induction ps as [| [k v] ps IH]; simpl; intros H; [reflexivity |].
  rewrite (H k (or_introl eq_refl)). f_equal.
  apply IH. intros k' Hk'. apply H. right. exact Hk'.
Qed.

(** [mapKeys] gives back a property list whose keys it leaves alone. *)
Lemma mapKeys_fixed (f : string -> string) qs :
  NoDup (map fst qs) -> inPropertyOrder (map fst qs) = true ->
  (forall k, In k (map fst qs) -> f k = k) ->
  mapKeys (plain qs) (fun _ key => f key) = plain qs.
Proof.
  intros Hnd Hord Hfix. unfold mapKeys. simpl. f_equal.
  assert (Hkeys : map f (map fst qs) = map fst qs).
  { clear - Hfix. induction (map fst qs) as [| k ks IH]; simpl;
      [reflexivity |].
    rewrite (Hfix k (or_introl eq_refl)). f_equal.
    apply IH. intros k' Hk'. apply Hfix. right. exact Hk'. }
  rewrite (mapKeys_fold_rename f qs []); simpl; rewrite ?Hkeys;
    try assumption.
  apply renameKeys_fixed. exact Hfix.
Qed.


(** ** Plain data under [makeStampable] *)

Lemma indexKey_inj n m : indexKey n = indexKey m -> n = m.
Proof.
  unfold indexKey. intros H.
  apply Unsigned.to_uint_inj.
  apply (f_equal NilEmpty.uint_of_string) in H.
  rewrite !NilEmpty.usu in H. injection H as H. exact H.
Qed.

Lemma indexKey_not_length n : String.eqb (indexKey n) "length" = false.
Proof. unfold indexKey. destruct (Nat.to_uint n); reflexivity. Qed.

Lemma indexKey_not_prototype_name n :
  isObjectPrototypeName (indexKey n) = false.
Proof. unfold indexKey. destruct (Nat.to_uint n); reflexivity. Qed.

Lemma indexedFrom_keys n xs k :
  In k (map fst (indexedFrom n xs)) -> exists m, n <= m /\ k = indexKey m.
Proof.
  revert n. induction xs as [| x xs IH]; simpl; intros n H; [destruct H |].
  destruct H as [<- | H].
  - exists n. split; [lia | reflexivity].
  - destruct (IH _ H) as [m [Hm ->]]. exists m. split; [lia | reflexivity].
Qed.

Lemma indexedFrom_NoDup n xs : NoDup (map fst (indexedFrom n xs)).
Proof.
  revert n. induction xs as [| x xs IH]; simpl; intros n; constructor.
  - intros H. apply indexedFrom_keys in H. destruct H as [m [Hm E]].
    apply indexKey_inj in E. lia.
  - apply IH.
Qed.



Lemma plainData_VArray items :
  plainData (VArray items) <-> Forall plainData items.
Proof.
  simpl. induction items as [| x xs IH].
  - split; [constructor | trivial].
  - split.
    + intros [H1 H2]. constructor; [exact H1 | apply IH; exact H2].
    + intros H. inversion H; subst. split; [assumption | apply IH; assumption].
Qed.

Lemma plainData_VObject proto props :
  plainData (VObject proto props) <->
  NoDup (map fst props) /\ noPrototypeNames (map fst props)
  /\ Forall (fun p => plainData (snd p)) props.
Proof.
  simpl.
  assert (H : (fix all (ps : list (string * value)) : Prop :=
                 match ps with
                 | [] => True
                 | p :: ps' => plainData (snd p) /\ all ps'
                 end) props <-> Forall (fun p => plainData (snd p)) props).
  { induction props as [| p ps IH].
    - split; [constructor | trivial].
    - split.
      + intros [H1 H2]. constructor; [exact H1 | apply IH; exact H2].
      + intros H. inversion H; subst.
        split; [assumption | apply IH; assumption]. }
  rewrite H. reflexivity.
Qed.

Lemma plainAgent_ObjectAgent objShape :
  plainAgent (ObjectAgent objShape) <->
  NoDup (map fst objShape) /\ noPrototypeNames (map fst objShape)
  /\ Forall (fun e => plainAgent (snd e)) objShape.
Proof.
  simpl.
  assert (H : (fix all (entries : list (string * agent)) : Prop :=
                 match entries with
                 | [] => True
                 | e :: entries' => plainAgent (snd e) /\ all entries'
                 end) objShape
              <-> Forall (fun e => plainAgent (snd e)) objShape).
  { induction objShape as [| e es IH].
    - split; [constructor | trivial].
    - split.
      + intros [H1 H2]. constructor; [exact H1 | apply IH; exact H2].
      + intros H. inversion H; subst.
        split; [assumption | apply IH; assumption]. }
  rewrite H. reflexivity.
Qed.

Lemma indexedFrom_values n xs :
  map snd (indexedFrom n xs) = xs.
Proof.
  revert n. induction xs as [| x xs IH]; simpl; intros n;
    [reflexivity | rewrite IH; reflexivity].
Qed.

(** The own enumerable properties of plain data. *)
Lemma plainData_ownEnumerable v :
  plainData v ->
  NoDup (map fst (ownEnumerable v))
  /\ noPrototypeNames (map fst (ownEnumerable v))
  /\ Forall (fun p => plainData (snd p)) (ownEnumerable v).
Proof.
  destruct v; simpl ownEnumerable; intros H;
    try (split; [constructor | split; [intros k [] | constructor]]).
  - apply plainData_VArray in H. split; [apply indexedFrom_NoDup |]. split.
    + intros k Hk. apply indexedFrom_keys in Hk. destruct Hk as [m [_ ->]].
      apply indexKey_not_prototype_name.
    + apply Forall_forall. intros p Hp. rewrite Forall_forall in H.
      apply H. rewrite <- (indexedFrom_values 0 items).
      apply in_map. exact Hp.
  - apply plainData_VObject in H. exact H.
Qed.

Lemma NoDup_assoc {A : Type} (ps : list (string * A)) k x :
  NoDup (map fst ps) -> In (k, x) ps -> assoc k ps = Some x.
Proof.
  induction ps as [| [k' y] ps IH]; simpl; intros Hnd Hin; [destruct Hin |].
  inversion Hnd as [| ? ? Hnot Hnd']; subst.
  destruct Hin as [E | Hin].
  - injection E as -> ->. rewrite String.eqb_refl. reflexivity.
  - destruct (String.eqb k' k) eqn:E.
    + apply String.eqb_eq in E. subst k'. exfalso. apply Hnot.
      apply (in_map fst) in Hin. exact Hin.
    + apply IH; assumption.
Qed.

Lemma assoc_sameKey_r {A B : Type} (R : string -> A -> B -> Prop) ps qs k q :
  Forall2 (sameKey R) ps qs -> assoc k qs = Some q ->
  exists p, assoc k ps = Some p /\ R k p q.
Proof.
  induction 1 as [| [k1 p1] [k2 q2] ps qs [Hk HR] _ IH]; simpl;
    [discriminate |].
  simpl in Hk, HR. subst k2.
  destruct (String.eqb k1 k) eqn:E.
  - apply String.eqb_eq in E. subst k1.
    intros E. injection E as <-. exists p1. split; [reflexivity | exact HR].
  - exact IH.
Qed.

Lemma assoc_sameKey_l {A B : Type} (R : string -> A -> B -> Prop) ps qs k p :
  Forall2 (sameKey R) ps qs -> assoc k ps = Some p ->
  exists q, assoc k qs = Some q /\ R k p q.
Proof.
  induction 1 as [| [k1 p1] [k2 q2] ps qs [Hk HR] _ IH]; simpl;
    [discriminate |].
  simpl in Hk, HR. subst k2.
  destruct (String.eqb k1 k) eqn:E.
  - apply String.eqb_eq in E. subst k1.
    intros E. injection E as <-. exists q2. split; [reflexivity | exact HR].
  - exact IH.
Qed.

Lemma sameKey_keys {A B : Type} (R : string -> A -> B -> Prop) ps qs :
  Forall2 (sameKey R) ps qs -> map fst qs = map fst ps.
Proof.
  induction 1 as [| p q ps qs [Hk _] _ IH]; simpl;
    [reflexivity | rewrite Hk, IH; reflexivity].
Qed.

Lemma mapM_Forall2 {A B : Type} (f : A -> completion B) xs ys :
  mapM f xs = Normal ys -> Forall2 (fun x y => f x = Normal y) xs ys.
Proof.
  revert ys. induction xs as [| x xs IH]; simpl; intros ys H.
  - injection H as <-. constructor.
  - bind_inv H y Hy.
    apply bind_Normal in H. destruct H as [ys' [Hys' H]].
    injection H as <-. constructor; [exact Hy | apply IH; exact Hys'].
Qed.

Lemma mapProps_Forall2 (f : value -> string -> completion value) ps qs :
  mapProps f ps = Normal qs ->
  Forall2 (sameKey (fun k v w => f v k = Normal w)) ps qs.
Proof.
  revert qs. induction ps as [| [k v] ps IH]; simpl; intros qs H.
  - injection H as <-. constructor.
  - bind_inv H y Hy.
    apply bind_Normal in H. destruct H as [qs' [Hqs' H]].
    injection H as <-. constructor; [| apply IH; exact Hqs'].
    split; [reflexivity | exact Hy].
Qed.

Lemma Forall2_In_left {A B : Type} (R : A -> B -> Prop) xs ys x :
  Forall2 R xs ys -> In x xs -> exists y, In y ys /\ R x y.
Proof.
  induction 1 as [| x' y' xs ys HR _ IH]; simpl; [intros [] |].
  intros [<- | Hin].
  - exists y'. split; [left; reflexivity | exact HR].
  - destruct (IH Hin) as [y [Hy HRy]]. exists y. split; [right |]; assumption.
Qed.

Lemma indexedFrom_Forall2 (R : value -> value -> Prop) n xs ws :
  Forall2 R xs ws ->
  Forall2 (sameKey (fun _ => R)) (indexedFrom n xs) (indexedFrom n ws).
Proof.
  intros H. revert n. induction H as [| x w xs ws HR _ IH]; simpl; intros n.
  - constructor.
  - constructor; [split; [reflexivity | exact HR] | apply IH].
Qed.

Lemma not_prototype_name_proto k :
  isObjectPrototypeName k = false -> String.eqb k "__proto__" = false.
Proof.
  intros H. destruct (String.eqb k "__proto__") eqn:E; [| reflexivity].
  apply String.eqb_eq in E. subst k. discriminate H.
Qed.

Lemma assoc_indexed_not_length k items p :
  assoc k (indexed items) = Some p -> String.eqb k "length" = false.
Proof.
  intros H. apply assoc_In in H. apply (in_map fst) in H. simpl in H.
  apply indexedFrom_keys in H. destruct H as [m [_ ->]].
  apply indexKey_not_length.
Qed.

(** An own enumerable property is the one a read finds. *)
Lemma findProperty_own r x k p :
  assoc k (ownEnumerable x) = Some p -> findProperty r x k = Some p.
Proof.
  destruct x; simpl; try discriminate.
  - intros H. unfold findInArray.
    rewrite (assoc_indexed_not_length _ _ _ H). rewrite H. reflexivity.
  - intros H. rewrite H. reflexivity.
Qed.

Lemma findProperty_plain r qs k :
  isObjectPrototypeName k = false ->
  findProperty r (plain qs) k = assoc k qs.
Proof.
  intros Hk. simpl. destruct (assoc k qs); [reflexivity |].
  unfold findInObjectPrototype.
  rewrite (not_prototype_name_proto k Hk), Hk. reflexivity.
Qed.

Lemma findInArrayPrototype_receiver r r' k :
  isObjectPrototypeName k = false ->
  findInArrayPrototype r k = findInArrayPrototype r' k.
Proof.
  intros Hk. unfold findInArrayPrototype, findInObjectPrototype.
  rewrite (not_prototype_name_proto k Hk). reflexivity.
Qed.

Lemma objectified_notAnObject x w :
  objectified x w -> notAnObject w = false -> notAnObject x = false.
Proof.
  intros H. inversion H; subst; trivial.
Qed.

(** A property read on the objectified value was there before. *)
Lemma findProperty_objectified x w k q :
  objectified x w ->
  isObjectPrototypeName k = false ->
  findProperty w w k = Some q ->
  exists p, findProperty x x k = Some p /\ objectified p q.
Proof.
  intros Hobj Hk Hq. inversion Hobj as [| xs ws Hall | x' qs Hx Hall]; subst.
  - exists q. split; [exact Hq | constructor].
  - simpl in Hq. simpl. unfold findInArray in *.
    rewrite (Forall2_length Hall).
    destruct (String.eqb k "length").
    + injection Hq as <-. eexists. split; [reflexivity | constructor].
    + pose proof (indexedFrom_Forall2 objectified 0 xs ws Hall) as Hix.
      fold (indexed xs) in Hix. fold (indexed ws) in Hix.
      destruct (assoc k (indexed ws)) as [q' |] eqn:Ew.
      * injection Hq as <-.
        destruct (assoc_sameKey_r _ _ _ _ _ Hix Ew) as [p [Ep Hp]].
        rewrite Ep. exists p. split; [reflexivity | exact Hp].
      * destruct (assoc k (indexed xs)) as [p |] eqn:Ex.
        { destruct (assoc_sameKey_l _ _ _ _ _ Hix Ex) as [q' [Eq' _]].
          congruence. }
        exists q. split; [| constructor].
        rewrite <- Hq. apply findInArrayPrototype_receiver. exact Hk.
  - rewrite (findProperty_plain _ _ _ Hk) in Hq.
    destruct (assoc_sameKey_r _ _ _ _ _ Hall Hq) as [p [Ep Hp]].
    exists p. split; [apply findProperty_own; exact Ep | exact Hp].
Qed.

Lemma sameValueZero_structured member w :
  sameValueZero member w = true ->
  match w with VArray _ | VObject _ _ => False | _ => True end.
Proof.
  destruct member, w; simpl; try discriminate; trivial.
Qed.

(** What an agent of plain data takes after objectifying, it took before. *)
Lemma verifyStamp_objectified :
  forall a, plainAgent a ->
  forall x w, objectified x w ->
              verifyStamp a w = true -> verifyStamp a x = true.
Proof.
  agent_induction a; intros Hp x w Hobj Hw;
    try (inversion Hobj; subst; [exact Hw | discriminate Hw ..]).
  - (* UnionAgent *)
    destruct Hp as [Hpu Hpv]. simpl in *.
    apply orb_true_iff in Hw. apply orb_true_iff.
    destruct Hw as [Hw | Hw]; [left; eapply IHu | right; eapply IHv];
      eassumption.
  - (* ArrayAgent *)
    inversion Hobj as [| xs ws Hall | x' qs Hx Hall]; subst;
      [exact Hw | | discriminate Hw].
    simpl in *. rewrite forallb_forall in Hw. apply forallb_forall.
    intros y Hy. destruct (Forall2_In_left _ _ _ _ Hall Hy) as [z [Hz Hyz]].
    exact (IHitem Hp y z Hyz (Hw z Hz)).
  - (* EnumAgent *)
    inversion Hobj as [| xs ws Hall | x' qs Hx Hall]; subst;
      [exact Hw | exfalso ..];
      simpl in Hw; unfold includes in Hw; apply existsb_exists in Hw;
      destruct Hw as [member [_ Hm]];
      apply sameValueZero_structured in Hm; exact Hm.
  - (* ObjectAgent *)
    apply plainAgent_ObjectAgent in Hp. destruct Hp as [_ [Hnames Hp]].
    rewrite verifyStamp_ObjectAgent in *.
    destruct (notAnObject w) eqn:Hnw; [discriminate Hw |].
    rewrite (objectified_notAnObject x w Hobj Hnw).
    rewrite forallb_forall in Hw. apply forallb_forall.
    intros [k ag] He. specialize (Hw _ He).
    assert (Hk : isObjectPrototypeName k = false).
    { apply Hnames. apply (in_map fst) in He. exact He. }
    unfold verifyEntry, hasProperty, get in *. simpl fst in *. simpl snd in *.
    destruct (findProperty w w k) as [q |] eqn:Eq; [| discriminate Hw].
    simpl in Hw.
    destruct (findProperty_objectified x w k q Hobj Hk Eq) as [p [Ep Hpq]].
    rewrite Ep. simpl.
    rewrite Forall_forall in IHshape, Hp.
    exact (IHshape _ He (Hp _ He) p q Hpq Hw).
  - (* UnsnakeAgent *) destruct Hp.
  - (* ConversionAgent *) destruct Hp.
Qed.




(** The three ways out of [UnionAgent.makeStampable]. *)
Lemma makeStampable_UnionAgent_cases u v x m :
  makeStampable' (UnionAgent u v) x = Normal m ->
  exists ux,
    makeStampable' u x = Normal ux
    /\ ((verifyStamp u ux = true /\ m = ux)
        \/ (verifyStamp u ux = false
            /\ exists vx,
                makeStampable' v x = Normal vx
                /\ ((verifyStamp v vx = true /\ m = vx)
                    \/ (verifyStamp v vx = false /\ m = x)))).
Proof.
  cbn [makeStampable]. unfold BaseAgent_canStamp. intros H.
  destruct (makeStampable' u x) as [ux | e] eqn:Eu; [| discriminate H].
  exists ux. split; [reflexivity |]. simpl in H.
  destruct (verifyStamp u ux) eqn:Vu.
  - left. split; [reflexivity | congruence].
  - right. split; [reflexivity |].
    destruct (makeStampable' v x) as [vx | e] eqn:Ev; [| discriminate H].
    exists vx. split; [reflexivity |]. simpl in H.
    destruct (verifyStamp v vx) eqn:Vv.
    + left. split; [reflexivity | congruence].
    + right. split; [reflexivity | congruence].
Qed.

Lemma ownEnumerable_objectified x w :
  objectified x w ->
  x = w
  \/ (notAnObject x = false
      /\ Forall2 (sameKey (fun _ => objectified))
                 (ownEnumerable x) (ownEnumerable w)).
Proof.
  intros H. inversion H as [| xs ws Hall | x' qs Hx Hall]; subst.
  - left. reflexivity.
  - right. split; [reflexivity |]. apply indexedFrom_Forall2. exact Hall.
  - right. split; assumption.
Qed.

Lemma stampField_agent objShape k ag val :
  NoDup (map fst objShape) -> In (k, ag) objShape ->
  stampField camelCase objShape val k = makeStampable' ag val.
Proof.
  intros Hnd Hin. unfold stampField, readShape.
  rewrite (NoDup_assoc _ _ _ Hnd Hin). reflexivity.
Qed.

Lemma forallb_aligned {A B C D : Type} (R : A -> B -> Prop)
    (F : A -> C -> Prop) (G : B -> D -> Prop) (Q : D -> bool) (Q' : C -> bool)
    xs ws ys zs :
  Forall2 R xs ws -> Forall2 F xs ys -> Forall2 G ws zs ->
  (forall x w y z, In x xs -> R x w -> F x y -> G w z ->
                   Q z = true -> Q' y = true) ->
  forallb Q zs = true -> forallb Q' ys = true.
Proof.
  intros HR. revert ys zs.
  induction HR as [| x w xs ws Hxw _ IH]; intros ys zs HF HG Hstep Hz;
    inversion HF; subst; inversion HG; subst; simpl in *; [reflexivity |].
  apply andb_true_iff in Hz. destruct Hz as [Hz1 Hz2].
  apply andb_true_iff. split.
  - eapply Hstep; eauto.
  - eapply IH; eauto.
Qed.

(** What an agent of plain data can stamp after objectifying, it could
    stamp before. *)
Lemma canStamp_objectified :
  forall a, plainAgent a ->
  forall x w, objectified x w ->
  forall mx mw,
    makeStampable' a x = Normal mx -> makeStampable' a w = Normal mw ->
    verifyStamp a mw = true -> verifyStamp a mx = true.
Proof.
  agent_induction a; intros Hp x w Hobj mx mw Hx Hw Hv;
    try (simpl in Hx, Hw; injection Hx as <-; injection Hw as <-;
         eapply verifyStamp_objectified; eassumption).
  - (* UnionAgent *)
    pose proof Hp as [Hpu Hpv].
    apply makeStampable_UnionAgent_cases in Hx, Hw.
    destruct Hx as [ux [Hux Hx]]. destruct Hw as [uw [Huw Hw]].
    cbn [verifyStamp] in *.
    destruct Hw as [[Vuw ->] | [Vuw [vw [Hvw Hw]]]].
    + pose proof (IHu Hpu x w Hobj ux uw Hux Huw Vuw) as Vux.
      destruct Hx as [[_ ->] | [Vux' _]]; [| congruence].
      rewrite Vux. reflexivity.
    + destruct Hx as [[Vux ->] | [Vux [vx [Hvx Hx]]]];
        [rewrite Vux; reflexivity |].
      destruct Hw as [[Vvw ->] | [Vvw ->]].
      * pose proof (IHv Hpv x w Hobj vx vw Hvx Hvw Vvw) as Vvx.
        destruct Hx as [[_ ->] | [Vvx' _]]; [| congruence].
        rewrite Vvx. apply orb_true_r.
      * destruct Hx as [[Vvx ->] | [Vvx ->]];
          [rewrite Vvx; apply orb_true_r |].
        change (verifyStamp (UnionAgent u v) x = true).
        apply (verifyStamp_objectified (UnionAgent u v) Hp x w Hobj).
        exact Hv.
  - (* ArrayAgent *)
    rewrite makeStampable_ArrayAgent in Hx, Hw.
    inversion Hobj as [| xs ws Hall | x' qs Hq Hall]; subst.
    + congruence.
    + simpl in Hx, Hw.
      bind_inv Hx ys Hys.
      bind_inv Hw zs Hzs.
      injection Hx as <-. injection Hw as <-. simpl in *.
      apply mapM_Forall2 in Hys, Hzs.
      apply (forallb_aligned _ _ _ (verifyStamp itemAgent)
               (verifyStamp itemAgent) _ _ _ _ Hall Hys Hzs); [| exact Hv].
      intros x0 w0 y z _ Hxw Hy Hz Hvz.
      exact (IHitem Hp x0 w0 Hxw y z Hy Hz Hvz).
    + simpl in Hw. injection Hw as <-. discriminate Hv.
  - (* ObjectAgent *)
    destruct (ownEnumerable_objectified x w Hobj) as [-> | [Hnx Hown]];
      [congruence |].
    apply plainAgent_ObjectAgent in Hp. destruct Hp as [Hnd [Hnames Hp]].
    rewrite makeStampable_ObjectAgent in Hx, Hw.
    rewrite Hnx in Hx.
    destruct (notAnObject w) eqn:Hnw.
    { injection Hw as <-. discriminate Hv. }
    unfold mapValues in Hx, Hw.
    bind_inv Hx qx Hqx.
    bind_inv Hw qw Hqw.
    injection Hx as <-. injection Hw as <-.
    apply mapProps_Forall2 in Hqx, Hqw.
    rewrite verifyStamp_ObjectAgent in Hv. rewrite verifyStamp_ObjectAgent.
    change (notAnObject (plain qw)) with false in Hv.
    change (notAnObject (plain qx)) with false.
    cbv iota in Hv. cbv iota.
    rewrite forallb_forall in Hv. apply forallb_forall.
    intros [k ag] He. specialize (Hv _ He).
    assert (Hk : isObjectPrototypeName k = false).
    { apply Hnames. apply (in_map fst) in He. exact He. }
    unfold verifyEntry, hasProperty, get in *. simpl fst in *. simpl snd in *.
    rewrite (findProperty_plain (plain qw) qw k Hk) in Hv.
    rewrite (findProperty_plain (plain qx) qx k Hk).
    destruct (assoc k qw) as [zq |] eqn:Ezq; [| simpl in Hv; discriminate Hv].
    cbn [negb] in Hv. cbv iota in Hv.
    destruct (assoc_sameKey_r _ _ _ _ _ Hqw Ezq) as [wv [Ewv Hwv]].
    destruct (assoc_sameKey_r _ _ _ _ _ Hown Ewv) as [xv [Exv Hxv]].
    destruct (assoc_sameKey_l _ _ _ _ _ Hqx Exv) as [yq [Eyq Hyq]].
    rewrite Eyq. cbn [negb]. cbv iota.
    rewrite (stampField_agent _ _ _ _ Hnd He) in Hwv.
    rewrite (stampField_agent _ _ _ _ Hnd He) in Hyq.
    rewrite Forall_forall in IHshape, Hp.
    exact (IHshape _ He (Hp _ He) xv wv Hxv yq zq Hyq Hwv Hv).
  - (* UnsnakeAgent *) destruct Hp.
  - (* ConversionAgent *) destruct Hp.
Qed.

Lemma Forall2_impl_In {A B : Type} (R R' : A -> B -> Prop) xs ys :
  (forall x y, In x xs -> In y ys -> R x y -> R' x y) ->
  Forall2 R xs ys -> Forall2 R' xs ys.
Proof.
  intros Himp H. induction H as [| x y xs ys HR _ IH]; constructor.
  - apply Himp; [left; reflexivity .. | exact HR].
  - apply IH. intros x' y' Hx Hy. apply Himp; right; assumption.
Qed.

(** What an agent of plain data makes stampable, and then takes, is the
    value objectified. *)
Lemma makeStampable_objectified :
  forall a, plainAgent a ->
  forall x w, plainData x ->
              makeStampable' a x = Normal w -> verifyStamp a w = true ->
              objectified x w.
Proof.
  agent_induction a; intros Hp x w Hd Hw Hv;
    try (simpl in Hw; injection Hw as <-; constructor).
  - (* UnionAgent *)
    destruct Hp as [Hpu Hpv].
    apply makeStampable_UnionAgent_cases in Hw.
    destruct Hw as [ux [Hux [[Vux ->] | [_ [vx [Hvx [[Vvx ->] | [_ ->]]]]]]]].
    + exact (IHu Hpu x ux Hd Hux Vux).
    + exact (IHv Hpv x vx Hd Hvx Vvx).
    + constructor.
  - (* ArrayAgent *)
    rewrite makeStampable_ArrayAgent in Hw.
    destruct x; simpl in Hw; try (injection Hw as <-; constructor).
    + destruct Hd.
    + bind_inv Hw ys Hys.
      injection Hw as <-. simpl in Hv. rewrite forallb_forall in Hv.
      apply plainData_VArray in Hd. rewrite Forall_forall in Hd.
      apply mapM_Forall2 in Hys. apply objectified_array.
      apply (Forall2_impl_In _ _ _ _ (fun x y Hx Hy Hxy =>
               IHitem Hp x y (Hd x Hx) Hxy (Hv y Hy)) Hys).
  - (* ObjectAgent *)
    pose proof Hp as Hp'.
    apply plainAgent_ObjectAgent in Hp'. destruct Hp' as [Hnd [Hnames Hp']].
    rewrite makeStampable_ObjectAgent in Hw.
    destruct (notAnObject x) eqn:Hnx.
    { injection Hw as <-. discriminate Hv. }
    unfold mapValues in Hw. bind_inv Hw qs Hqs. injection Hw as <-.
    apply mapProps_Forall2 in Hqs.
    destruct (plainData_ownEnumerable x Hd) as [Hndx [_ Hdx]].
    rewrite verifyStamp_ObjectAgent in Hv.
    change (notAnObject (plain qs)) with false in Hv. cbv iota in Hv.
    rewrite forallb_forall in Hv.
    apply objectified_plain; [exact Hnx |].
    pose proof (sameKey_keys _ _ _ Hqs) as Hkeys.
    refine (Forall2_impl_In _ _ _ _ _ Hqs).
    intros [k xv] [k' qv] Hin Hin' [Hk Hst]. simpl in Hk, Hst. subst k'.
    split; [reflexivity |]. simpl.
    unfold stampField, readShape in Hst.
    destruct (assoc k objShape) as [ag |] eqn:Eag.
    + apply assoc_In in Eag.
      specialize (Hv _ Eag).
      assert (Hk : isObjectPrototypeName k = false).
      { apply Hnames. apply (in_map fst) in Eag. exact Eag. }
      unfold verifyEntry, hasProperty, get in Hv.
      simpl fst in Hv. simpl snd in Hv.
      rewrite (findProperty_plain (plain qs) qs k Hk) in Hv.
      assert (Eq : assoc k qs = Some qv).
      { apply NoDup_assoc; [rewrite Hkeys; exact Hndx | exact Hin']. }
      rewrite Eq in Hv. cbn [negb] in Hv. cbv iota in Hv.
      rewrite Forall_forall in IHshape, Hp', Hdx.
      exact (IHshape _ Eag (Hp' _ Eag) xv qv (Hdx _ Hin) Hst Hv).
    + destruct (isObjectPrototypeName k); [discriminate Hst |].
      injection Hst as <-. constructor.
  - (* UnsnakeAgent *) destruct Hp.
  - (* ConversionAgent *) destruct Hp.
Qed.

Lemma mapM_total {A B : Type} (f : A -> completion B) (Q : B -> Prop) xs :
  Forall (fun x => exists y, f x = Normal y /\ Q y) xs ->
  exists ys, mapM f xs = Normal ys /\ Forall Q ys.
Proof.
  induction 1 as [| x xs [y [Hy HQ]] _ [ys [Hys HQs]]]; simpl.
  - exists []. split; [reflexivity | constructor].
  - exists (y :: ys). rewrite Hy. simpl. rewrite Hys. simpl.
    split; [reflexivity | constructor; assumption].
Qed.

Lemma mapProps_total (f : value -> string -> completion value)
    (Q : value -> Prop) ps :
  Forall (fun p => exists y, f (snd p) (fst p) = Normal y /\ Q y) ps ->
  exists qs, mapProps f ps = Normal qs
             /\ Forall (fun q => Q (snd q)) qs
             /\ map fst qs = map fst ps.
Proof.
  induction 1 as [| [k v] ps [y [Hy HQ]] _ [qs [Hqs [HQs Hkeys]]]]; simpl.
  - exists []. repeat split. constructor.
  - exists ((k, y) :: qs). simpl in Hy. rewrite Hy. simpl. rewrite Hqs. simpl.
    split; [reflexivity |]. split; [constructor; assumption |].
    rewrite Hkeys. reflexivity.
Qed.

(** On plain data an agent of plain data does not throw, and gives plain
    data. *)
Lemma makeStampable_plainData :
  forall a, plainAgent a ->
  forall x, plainData x ->
            exists w, makeStampable' a x = Normal w /\ plainData w.
Proof.
  agent_induction a; intros Hp x Hd;
    try (exists x; split; [reflexivity | exact Hd]).
  - (* UnionAgent *)
    destruct Hp as [Hpu Hpv].
    destruct (IHu Hpu x Hd) as [ux [Hux Hdu]].
    destruct (IHv Hpv x Hd) as [vx [Hvx Hdv]].
    cbn [makeStampable]. unfold BaseAgent_canStamp.
    rewrite Hux. simpl. destruct (verifyStamp u ux).
    + exists ux. split; [reflexivity | exact Hdu].
    + rewrite Hvx. simpl. destruct (verifyStamp v vx).
      * exists vx. split; [reflexivity | exact Hdv].
      * exists x. split; [reflexivity | exact Hd].
  - (* ArrayAgent *)
    rewrite makeStampable_ArrayAgent.
    destruct x; simpl; try (eexists; split; [reflexivity | exact Hd]).
    + destruct Hd.
    + apply plainData_VArray in Hd.
      destruct (mapM_total (makeStampable' itemAgent) plainData items)
        as [ys [Hys Hdy]].
      { apply Forall_forall. intros x Hx. rewrite Forall_forall in Hd.
        exact (IHitem Hp x (Hd x Hx)). }
      exists (VArray ys). rewrite Hys. simpl.
      split; [reflexivity | apply plainData_VArray; exact Hdy].
  - (* ObjectAgent *)
    apply plainAgent_ObjectAgent in Hp. destruct Hp as [Hnd [Hnames Hp]].
    rewrite makeStampable_ObjectAgent.
    destruct (notAnObject x) eqn:Hnx.
    { exists (VBool false). split; [reflexivity | exact I]. }
    destruct (plainData_ownEnumerable x Hd) as [Hndx [Hnx' Hdx]].
    destruct (mapProps_total (stampField camelCase objShape) plainData
                (ownEnumerable x)) as [qs [Hqs [Hdq Hkeys]]].
    { apply Forall_forall. intros [k xv] Hin. simpl.
      unfold stampField, readShape.
      rewrite Forall_forall in IHshape, Hp, Hdx.
      destruct (assoc k objShape) as [ag |] eqn:Eag.
      - apply assoc_In in Eag.
        exact (IHshape _ Eag (Hp _ Eag) xv (Hdx _ Hin)).
      - rewrite (Hnx' k).
        + exists xv. split; [reflexivity | exact (Hdx _ Hin)].
        + apply (in_map fst) in Hin. exact Hin. }
    exists (plain qs). unfold mapValues. rewrite Hqs. simpl.
    split; [reflexivity |].
    apply (proj2 (plainData_VObject VObjectPrototype qs)).
    rewrite Hkeys. repeat split; assumption.
  - (* UnsnakeAgent *) destruct Hp.
  - (* ConversionAgent *) destruct Hp.
Qed.

(** ** [makeStampable] twice *)

Lemma canStamp_Normal a x b :
  canStamp' a x = Normal b <->
  exists w, makeStampable' a x = Normal w /\ verifyStamp a w = b.
Proof.
  unfold canStamp, BaseAgent_canStamp. split.
  - intros H. bind_inv H w Hw. injection H as H. exists w. split; assumption.
  - intros [w [Hw Hv]]. rewrite Hw. simpl. rewrite Hv. reflexivity.
Qed.

(** What [makeStampable] returns where it settles, it returns unchanged
    when given it again. *)
Lemma makeStampable_settled :
  forall a x w,
    settlesAt camelCase a x ->
    makeStampable' a x = Normal w -> makeStampable' a w = Normal w.
Proof.
  agent_induction a; intros x w Hs Hw;
    try (simpl in Hw; injection Hw as <-; reflexivity).
  - (* UnionAgent *)
    cbn [settlesAt] in Hs.
    pose proof Hw as Hcases.
    apply makeStampable_UnionAgent_cases in Hcases.
    destruct Hcases
      as [ux [Hux [[Vux ->] | [Vux [vx [Hvx [[Vvx ->] | [Vvx ->]]]]]]]].
    + (* the left agent stamped *)
      rewrite (proj2 (canStamp_Normal u x true)) in Hs;
        [| exists ux; split; assumption].
      cbn [makeStampable]. unfold BaseAgent_canStamp.
      rewrite (IHu x ux Hs Hux). simpl. rewrite Vux. reflexivity.
    + (* the right agent stamped *)
      rewrite (proj2 (canStamp_Normal u x false)) in Hs;
        [| exists ux; split; assumption].
      rewrite (proj2 (canStamp_Normal v x true)) in Hs;
        [| exists vx; split; assumption].
      destruct Hs as [Hsv Hkeep].
      pose proof (IHv x vx Hsv Hvx) as Hvw.
      cbn [makeStampable]. unfold BaseAgent_canStamp.
      destruct (Hkeep vx Hvx) as [Hno | Hsame].
      * apply canStamp_Normal in Hno. destruct Hno as [uw [Huw Vuw]].
        rewrite Huw. simpl. rewrite Vuw, Hvw. simpl. rewrite Vvx.
        reflexivity.
      * rewrite Hsame. simpl. destruct (verifyStamp u vx); [reflexivity |].
        rewrite Hvw. simpl. rewrite Vvx. reflexivity.
    + (* neither did *)
      exact Hw.
  - (* ArrayAgent *)
    cbn [settlesAt] in Hs.
    rewrite makeStampable_ArrayAgent in Hw. rewrite makeStampable_ArrayAgent.
    destruct (isArray x) eqn:Harr; simpl in Hw.
    + bind_inv Hw items Hitems.
      injection Hw as <-. simpl.
      rewrite (mapM_settled (makeStampable' itemAgent) (elements x));
        [reflexivity | | exact Hitems].
      rewrite Forall_forall in Hs. apply Forall_forall.
      intros y Hy w. apply IHitem. exact (Hs y Hy).
    + injection Hw as <-. rewrite Harr. reflexivity.
  - (* ObjectAgent *)
    apply settlesAt_ObjectAgent in Hs.
    rewrite makeStampable_ObjectAgent in Hw. rewrite makeStampable_ObjectAgent.
    destruct (notAnObject x) eqn:Hobj.
    + injection Hw as <-. reflexivity.
    + unfold mapValues in Hw. bind_inv Hw qs Hqs. injection Hw as <-.
      simpl. unfold mapValues. simpl.
      rewrite (mapProps_settled (stampField camelCase objShape)
                 (ownEnumerable x)); [reflexivity | | exact Hqs].
      apply Forall_forall. intros [k val] Hin w. simpl.
      unfold stampField, readShape.
      destruct (assoc k objShape) as [ag |] eqn:E.
      * apply assoc_In in E. rewrite Forall_forall in IHshape, Hs.
        apply (IHshape _ E). exact (Hs _ E val Hin).
      * destruct (isObjectPrototypeName k); [discriminate |].
        intros H. injection H as <-. reflexivity.
  - (* UnsnakeAgent *)
    destruct objAgent as [| | | | | | | objShape | |];
      try (destruct Hs; fail).
    destruct Hs as [Hcamel Hs].
    cbn [makeStampable] in Hw.
    destruct (notAnObject x) eqn:Hobj.
    + injection Hw as <-. cbn [makeStampable]. rewrite Hobj. reflexivity.
    + pose (ps := fold_left
                    (fun acc kv => assign acc (camelCase (fst kv)) (snd kv))
                    (ownEnumerable x) []).
      change (settlesAt camelCase (ObjectAgent objShape) (plain ps)) in Hs.
      change (makeStampable' (ObjectAgent objShape) (plain ps) = Normal w)
        in Hw.
      pose proof (IHobj (plain ps) w Hs Hw) as Hagain.
      rewrite makeStampable_ObjectAgent in Hw.
      change (notAnObject (plain ps)) with false in Hw. cbv iota in Hw.
      unfold mapValues in Hw. change (ownEnumerable (plain ps)) with ps in Hw.
      bind_inv Hw qs Hqs. injection Hw as <-. apply mapProps_keys in Hqs.
      change (makeStampable' (ObjectAgent objShape)
                (mapKeys (plain qs) (fun _ key => camelCase key))
              = Normal (plain qs)).
      destruct (mapKeys_fold_keys camelCase (ownEnumerable x) []
                  (NoDup_nil _) eq_refl) as [Hnd [Hord Hfrom]].
      fold ps in Hnd, Hord, Hfrom.
      rewrite (mapKeys_fixed camelCase qs); [exact Hagain | | |];
        rewrite Hqs; [exact Hnd | exact Hord |].
      intros k Hk. destruct (Hfrom k Hk) as [[] | Hin].
      apply in_map_iff in Hin. destruct Hin as [k0 [<- Hk0]].
      apply Hcamel. exact Hk0.
  - (* ConversionAgent *)
    simpl in Hw, Hs. simpl.
    destruct (verifyStamp i x) eqn:Hin; simpl in Hw; injection Hw as <-.
    + destruct (verifyStamp i (c x)) eqn:Hin'; simpl.
      * rewrite (Hs eq_refl eq_refl). reflexivity.
      * reflexivity.
    + rewrite Hin. reflexivity.
Qed.

Lemma makeStampable_inherited a x :
  inheritsMakeStampable a = true -> makeStampable' a x = Normal x.
Proof.
  destruct a; intros H; try discriminate H; reflexivity.
Qed.

Lemma settlesAt_inherited a x :
  inheritsMakeStampable a = true -> settlesAt camelCase a x.
Proof.
  destruct a; intros H; try discriminate H; exact I.
Qed.

(** A union with an agent that inherits [makeStampable] settles where the
    other agent does. *)
Lemma settlesAt_UnionAgent_left u v x :
  inheritsMakeStampable u = true -> settlesAt camelCase v x ->
  settlesAt camelCase (UnionAgent u v) x.
Proof.
  intros Hu Hv. cbn [settlesAt].
  destruct (canStamp' u x) as [[|] | e];
    [exact (settlesAt_inherited u x Hu) | | exact I].
  destruct (canStamp' v x) as [[|] | e]; try exact I.
  split; [exact Hv |]. intros w _. right.
  exact (makeStampable_inherited u w Hu).
Qed.

Lemma settlesAt_UnionAgent_right u v x :
  settlesAt camelCase u x -> inheritsMakeStampable v = true ->
  settlesAt camelCase (UnionAgent u v) x.
Proof.
  intros Hu Hv. cbn [settlesAt].
  destruct (canStamp' u x) as [[|] | e] eqn:Cu; [exact Hu | | exact I].
  destruct (canStamp' v x) as [[|] | e]; try exact I.
  split; [exact (settlesAt_inherited v x Hv) |]. intros w Hw.
  rewrite (makeStampable_inherited v x Hv) in Hw. injection Hw as <-.
  left. exact Cu.
Qed.

(** The agents of plain data settle on plain data. *)
Lemma settlesAt_plain :
  forall a, plainAgent a ->
  forall x, plainData x -> settlesAt camelCase a x.
Proof.
  agent_induction a; intros Hp x Hd; try exact I; try (destruct Hp; fail).
  - (* UnionAgent *)
    destruct Hp as [Hpu Hpv]. cbn [settlesAt].
    destruct (canStamp' u x) as [[|] | e] eqn:Cu;
      [exact (IHu Hpu x Hd) | | exact I].
    destruct (canStamp' v x) as [[|] | e] eqn:Cv; try exact I.
    split; [exact (IHv Hpv x Hd) |].
    intros w Hw. left.
    apply canStamp_Normal in Cu, Cv.
    destruct Cu as [ux [Hux Vux]]. destruct Cv as [vx [Hvx Vvx]].
    assert (vx = w) by congruence. subst vx.
    destruct (makeStampable_plainData v Hpv x Hd) as [w' [Hw' Hdw]].
    assert (w' = w) by congruence. subst w'.
    destruct (makeStampable_plainData u Hpu w Hdw) as [uw [Huw _]].
    apply canStamp_Normal. exists uw. split; [exact Huw |].
    destruct (verifyStamp u uw) eqn:Vuw; [| reflexivity].
    pose proof (makeStampable_objectified v Hpv x w Hd Hw Vvx) as Hobj.
    pose proof (canStamp_objectified u Hpu x w Hobj ux uw Hux Huw Vuw).
    congruence.
  - (* ArrayAgent *)
    cbn [settlesAt]. destruct x; try (apply Forall_nil).
    apply plainData_VArray in Hd. simpl.
    rewrite Forall_forall in Hd. apply Forall_forall.
    intros y Hy. exact (IHitem Hp y (Hd y Hy)).
  - (* ObjectAgent *)
    apply settlesAt_ObjectAgent.
    apply plainAgent_ObjectAgent in Hp. destruct Hp as [_ [_ Hp]].
    destruct (plainData_ownEnumerable x Hd) as [_ [_ Hall]].
    rewrite Forall_forall in IHshape, Hp, Hall. apply Forall_forall.
    intros e He val Hin.
    exact (IHshape e He (Hp e He) val (Hall _ Hin)).
Qed.

(** C4, as the code has it: where [makeStampable] settles, a value that it
    returns is returned unchanged by a second [makeStampable]; so it is on
    every value the agent can stamp.  It settles when every converter that
    makes a part of the result leaves that part alone or takes it out of
    the input type, when [camelCase] leaves alone the new name of every key
    it renames, and when no left agent of a union stamps otherwise what the
    right agent has stamped.  The last holds of a union with a primitive or
    enum agent, so of the nullable agents, and on plain data of the unions
    of agents of plain data. *)
Theorem makeStampable_idempotent :
  (forall a requested,
      settlesAt camelCase a requested ->
      (forall stampable,
          makeStampable' a requested = Normal stampable ->
          makeStampable' a stampable = Normal stampable)
      /\ (canStamp' a requested = Normal true ->
          (stampable <- makeStampable' a requested ;;
           makeStampable' a stampable)
          = makeStampable' a requested))
  /\ (forall leftType rightType requested,
         inheritsMakeStampable leftType = true ->
         settlesAt camelCase rightType requested ->
         settlesAt camelCase (unionAgent leftType rightType) requested)
  /\ (forall leftType rightType requested,
         settlesAt camelCase leftType requested ->
         inheritsMakeStampable rightType = true ->
         settlesAt camelCase (unionAgent leftType rightType) requested)
  /\ (forall a requested,
         plainAgent a -> plainData requested ->
         settlesAt camelCase a requested).
Proof.
  split; [| split; [| split]].
  - intros a requested Hs.
    pose proof (fun w => makeStampable_settled a requested w Hs) as H.
    split; [exact H |].
    intros Hcan. apply canStamp_Normal in Hcan.
    destruct Hcan as [stampable [Hmk _]].
    rewrite Hmk. simpl. exact (H _ Hmk).
  - exact settlesAt_UnionAgent_left.
  - exact settlesAt_UnionAgent_right.
  - intros a requested Hp Hd. exact (settlesAt_plain a Hp requested Hd).
Qed.

(** ** Further properties *)

(** The primitive agents look at the kind of the value and at nothing
    else: [NaN] is a number, and [null] is taken by the null agent only. *)
Theorem primitive_verifyStamp :
  forall requested,
    (verifyStamp stringAgent requested = true <->
     exists s, requested = VString s)
    /\ (verifyStamp numberAgent requested = true <->
        exists x, requested = VNumber x)
    /\ (verifyStamp booleanAgent requested = true <->
        exists b, requested = VBool b)
    /\ (verifyStamp nullAgent requested = true <-> requested = VNull).
Proof.
  intros requested. repeat split; intros H;
    try (destruct requested; try discriminate H; eexists; reflexivity);
    try (destruct H as [? ->]; reflexivity);
    try (destruct requested; try discriminate H; reflexivity).
Qed.

(** The only exception [makeStampable] throws is the [TypeError] of the
    missing method. *)
Lemma makeStampable_Throw :
  forall a requested e,
    makeStampable' a requested = Throw e -> e = notAFunction.
Proof.
  agent_induction a; intros requested e He; try discriminate He.
  - cbn [makeStampable] in He. unfold BaseAgent_canStamp in He.
    destruct (makeStampable' u requested) as [ux |] eqn:Eu;
      [| injection He as <-; exact (IHu _ _ Eu)].
    simpl in He. destruct (verifyStamp u ux); [discriminate He |].
    destruct (makeStampable' v requested) as [vx |] eqn:Ev;
      [| injection He as <-; exact (IHv _ _ Ev)].
    simpl in He. destruct (verifyStamp v vx); discriminate He.
  - rewrite makeStampable_ArrayAgent in He.
    destruct (negb (isArray requested)); [discriminate He |].
    induction (elements requested) as [| x xs IH]; simpl in He;
      [discriminate He |].
    destruct (makeStampable' itemAgent x) eqn:Ex;
      [| injection He as <-; exact (IHitem _ _ Ex)].
    simpl in He.
    destruct (mapM (makeStampable' itemAgent) xs); [discriminate He |].
    apply IH. exact He.
  - rewrite makeStampable_ObjectAgent in He.
    destruct (notAnObject requested); [discriminate He |].
    unfold mapValues in He.
    induction (ownEnumerable requested) as [| [k x] ps IH]; simpl in He;
      [discriminate He |].
    destruct (stampField camelCase objShape x k) eqn:Ex.
    + simpl in He.
      destruct (mapProps (stampField camelCase objShape) ps);
        [discriminate He |].
      apply IH. exact He.
    + injection He as <-. unfold stampField, readShape in Ex.
      destruct (assoc k objShape) as [ag |] eqn:Ek.
      * apply assoc_In in Ek. rewrite Forall_forall in IHshape.
        exact (IHshape _ Ek _ _ Ex).
      * destruct (isObjectPrototypeName k); [| discriminate Ex].
        injection Ex as <-. reflexivity.
  - cbn [makeStampable] in He.
    destruct (notAnObject requested); [discriminate He |].
    exact (IHobj _ _ He).
  - simpl in He. destruct (negb (verifyStamp i requested)); discriminate He.
Qed.

(** The [makeStampable] of an [ObjectAgent] throws on every object that
    has an own enumerable key named like a member of [Object.prototype]
    that the shape does not declare. *)
Theorem objectAgent_makeStampable_prototype_name :
  forall objShape requested key val,
    notAnObject requested = false ->
    In (key, val) (ownEnumerable requested) ->
    isObjectPrototypeName key = true ->
    assoc key objShape = None ->
    makeStampable' (objectAgent objShape) requested = Throw notAFunction.
Proof.
  intros objShape requested key val Hobj Hin Hname Hshape.
  assert (H : exists e, makeStampable' (objectAgent objShape) requested
                        = Throw e).
  { unfold objectAgent. rewrite makeStampable_ObjectAgent, Hobj.
    unfold mapValues.
    induction (ownEnumerable requested) as [| [k x] ps IH];
      [destruct Hin |].
    simpl. destruct Hin as [E | Hin].
    - injection E as -> ->. unfold stampField at 1, readShape.
      rewrite Hshape, Hname. eexists. reflexivity.
    - destruct (stampField camelCase objShape x k);
        [| eexists; reflexivity].
      simpl. destruct (IH Hin) as [e He].
      destruct (mapProps (stampField camelCase objShape) ps);
        [discriminate He |].
      eexists. reflexivity. }
  destruct H as [e He]. rewrite He.
  rewrite (makeStampable_Throw _ _ _ He). reflexivity.
Qed.

(** What an [ObjectAgent] can stamp has every key of the shape as an own
    enumerable property, the names of [Object.prototype] apart: inherited
    properties do not survive [mapValues]. *)
Theorem objectAgent_canStamp_own_property :
  forall objShape requested property ag,
    In (property, ag) objShape ->
    isObjectPrototypeName property = false ->
    canStamp' (objectAgent objShape) requested = Normal true ->
    exists val, assoc property (ownEnumerable requested) = Some val.
Proof.
  intros objShape requested property ag Hin Hname Hcan.
  unfold canStamp, BaseAgent_canStamp, objectAgent in Hcan.
  apply bind_Normal in Hcan. destruct Hcan as [stampable [Hmk Hv]].
  injection Hv as Hv.
  rewrite makeStampable_ObjectAgent in Hmk.
  destruct (notAnObject requested).
  { injection Hmk as <-. discriminate Hv. }
  unfold mapValues in Hmk. bind_inv Hmk qs Hqs. injection Hmk as <-.
  apply mapProps_Forall2 in Hqs.
  change (verifyStamp (ObjectAgent objShape) (plain qs) = true) in Hv.
  rewrite verifyStamp_ObjectAgent in Hv.
  change (notAnObject (plain qs)) with false in Hv. cbv iota in Hv.
  rewrite forallb_forall in Hv. specialize (Hv _ Hin).
  unfold verifyEntry, hasProperty in Hv. simpl fst in Hv.
  rewrite (findProperty_plain (plain qs) qs property Hname) in Hv.
  destruct (assoc property qs) as [q |] eqn:Eq;
    [| simpl in Hv; discriminate Hv].
  destruct (assoc_sameKey_r _ _ _ _ _ Hqs Eq) as [val [Hval _]].
  exists val. exact Hval.
Qed.

(** The scenario of the articles: a record with a title and tags that are
    strings is stamped as it is; one with a number among the tags is
    refused. *)
Theorem stamp_article_scenario :
  let a := objectAgent [ ("title", stringAgent);
                         ("tags", arrayAgent stringAgent) ] in
  let good := plain [ ("title", VString "t");
                      ("tags", VArray [VString "a"; VString "b"]) ] in
  let bad := plain [ ("title", VString "t");
                     ("tags", VArray [VString "a"; VNumber 5]) ] in
  stamp' a good = Normal good
  /\ canStamp' a good = Normal true
  /\ stamp' a bad = Throw (cannotBeStamped ToString bad)
  /\ canStamp' a bad = Normal false.
Proof.
  repeat split.
Qed.

(** ** The methods together *)

Lemma stamp_BaseAgent a requested :
  isConversionAgent a = false ->
  stamp' a requested
  = BaseAgent_stamp ToString (makeStampable' a) (verifyStamp a) requested.
Proof.
  destruct a; intros H; try reflexivity. discriminate H.
Qed.

(** What the refusal throws: its own error when the value has a string,
    and otherwise what the conversion to a string throws. *)
Lemma cannotBeStamped_cases requested :
  (forall s, ToString requested = Normal s ->
             cannotBeStamped ToString requested
             = Error (s ++ " cannot be stamped by agent [object Object]"))
  /\ (forall e, ToString requested = Throw e ->
                cannotBeStamped ToString requested = e).
Proof.
  unfold cannotBeStamped. split; intros x H; rewrite H; reflexivity.
Qed.

(** [canStamp] and [stamp] agree on every agent that is not a
    [ConversionAgent]: [stamp] returns a value exactly when [canStamp] says
    yes, the value is the one [makeStampable] made and [verifyStamp] takes
    it; when [canStamp] throws, [stamp] throws the same; when [canStamp]
    says no, [stamp] throws its own error, about the value it was given,
    if that value has a string, and otherwise what the conversion of the
    value to a string throws; and, for an agent that holds no converter,
    which could throw an [Error] of its own, [stamp] throws an [Error] only
    when [canStamp] says no. *)
Theorem canStamp_guards_stamp :
  forall a requested,
    isConversionAgent a = false ->
    (canStamp' a requested = Normal true <->
     exists stamped, stamp' a requested = Normal stamped)
    /\ (forall stamped,
           stamp' a requested = Normal stamped ->
           makeStampable' a requested = Normal stamped
           /\ verifyStamp a stamped = true)
    /\ (forall e, canStamp' a requested = Throw e ->
                  stamp' a requested = Throw e)
    /\ (canStamp' a requested = Normal false ->
        (forall s,
            ToString requested = Normal s ->
            stamp' a requested
            = Throw (Error (s ++ " cannot be stamped by agent [object Object]")))
        /\ (forall e, ToString requested = Throw e ->
                      stamp' a requested = Throw e))
    /\ (callsConverter a = false ->
        forall message,
          stamp' a requested = Throw (Error message) ->
          canStamp' a requested = Normal false).
Proof.
  intros a requested Ha. rewrite (stamp_BaseAgent a requested Ha).
  destruct (cannotBeStamped_cases requested) as [HN HT].
  unfold canStamp, BaseAgent_canStamp, BaseAgent_stamp.
  destruct (makeStampable' a requested) as [w | e] eqn:Emk; simpl.
  - destruct (verifyStamp a w) eqn:Ev.
    + split; [| split; [| split; [| split]]].
      * split; [intros _; exists w; reflexivity | reflexivity].
      * intros stamped H. injection H as <-. split; [reflexivity | exact Ev].
      * intros e H. discriminate H.
      * intros H. discriminate H.
      * intros _ message H. discriminate H.
    + split; [| split; [| split; [| split]]].
      * split; [discriminate | intros [stamped H]; discriminate H].
      * intros stamped H. discriminate H.
      * intros e H. discriminate H.
      * intros _. split.
        -- intros s Hs. rewrite (HN s Hs). reflexivity.
        -- intros e He. rewrite (HT e He). reflexivity.
      * intros _ message _. reflexivity.
  - pose proof (makeStampable_Throw a requested e Emk) as ->.
    split; [| split; [| split; [| split]]].
    + split; [discriminate | intros [stamped H]; discriminate H].
    + intros stamped H. discriminate H.
    + intros e H. injection H as <-. reflexivity.
    + intros H. discriminate H.
    + intros _ message H. discriminate H.
Qed.

(** The exceptions of an agent that holds no [ConversionAgent], whose
    converter is a function of the user of the library and may throw what
    it wants: [makeStampable] and [canStamp] throw nothing but the
    [TypeError] of [ObjectAgent.makeStampable]; [stamp] throws that, or,
    when [canStamp] says no, what the refusal throws. *)
Theorem exceptions_of_the_methods :
  forall a requested e,
    callsConverter a = false ->
    (makeStampable' a requested = Throw e -> e = notAFunction)
    /\ (canStamp' a requested = Throw e -> e = notAFunction)
    /\ (stamp' a requested = Throw e ->
        (e = notAFunction /\ canStamp' a requested = Throw notAFunction)
        \/ (e = cannotBeStamped ToString requested
            /\ canStamp' a requested = Normal false)).
Proof.
  intros a requested e Ha. split; [apply makeStampable_Throw |]. split.
  - unfold canStamp, BaseAgent_canStamp.
    destruct (makeStampable' a requested) as [w | e'] eqn:Emk; simpl;
      [discriminate |].
    intros H. injection H as <-. exact (makeStampable_Throw _ _ _ Emk).
  - rewrite (stamp_BaseAgent a requested);
      [| destruct a; try reflexivity; discriminate Ha].
    unfold canStamp, BaseAgent_canStamp, BaseAgent_stamp.
    destruct (makeStampable' a requested) as [w | e'] eqn:Emk; simpl.
    + destruct (verifyStamp a w); [discriminate |].
      intros H. injection H as <-. right. split; reflexivity.
    + intros H. injection H as <-. left.
      rewrite (makeStampable_Throw _ _ _ Emk). split; reflexivity.
Qed.

Lemma makeStampable_passive :
  forall a, passive a ->
  forall x, plainData x -> makeStampable' a x = Normal x.
Proof.
  agent_induction a; intros Hp x Hd; try reflexivity;
    try (destruct Hp; fail).
  - destruct Hp as [Hpu Hpv]. cbn [makeStampable].
    unfold BaseAgent_canStamp.
    rewrite (IHu Hpu x Hd), (IHv Hpv x Hd). simpl.
    destruct (verifyStamp u x); [reflexivity |].
    destruct (verifyStamp v x); reflexivity.
  - rewrite makeStampable_ArrayAgent.
    destruct x; try reflexivity; [destruct Hd |].
    apply plainData_VArray in Hd. simpl.
    assert (H : mapM (makeStampable' itemAgent) items = Normal items).
    { induction Hd as [| x xs Hx _ IH]; simpl; [reflexivity |].
      rewrite (IHitem Hp x Hx). simpl. rewrite IH. reflexivity. }
    rewrite H. reflexivity.
Qed.

(** The primitive agents, the enum agents and the unions and arrays of
    them change nothing in plain data: [canStamp] is [verifyStamp], and
    [stamp] gives the value back or throws what the refusal throws. *)
Theorem passive_agents_keep_the_value :
  forall a requested,
    passive a -> plainData requested ->
    makeStampable' a requested = Normal requested
    /\ canStamp' a requested = Normal (verifyStamp a requested)
    /\ stamp' a requested
       = if verifyStamp a requested then Normal requested
         else Throw (cannotBeStamped ToString requested).
Proof.
  intros a requested Hp Hd.
  pose proof (makeStampable_passive a Hp requested Hd) as Hmk.
  split; [exact Hmk |]. split.
  - unfold canStamp, BaseAgent_canStamp. rewrite Hmk. reflexivity.
  - rewrite stamp_BaseAgent; [| destruct a; try reflexivity; destruct Hp].
    unfold BaseAgent_stamp. rewrite Hmk. reflexivity.
Qed.

(** A [UnionAgent] can stamp a value when one of its agents can, and also
    when neither can but one of them takes the value as it is; the nullable
    agent stamps [null] as [null] without a look at the other agent. *)
Theorem unionAgent_canStamp :
  (forall leftType rightType requested canLeft canRight,
      canStamp' leftType requested = Normal canLeft ->
      canStamp' rightType requested = Normal canRight ->
      canStamp' (unionAgent leftType rightType) requested
      = Normal (canLeft || canRight
                || verifyStamp leftType requested
                || verifyStamp rightType requested))
  /\ (forall otherAgent,
         canStamp' (nullableAgent otherAgent) VNull = Normal true
         /\ stamp' (nullableAgent otherAgent) VNull = Normal VNull).
Proof.
  split; [| intros otherAgent; split; reflexivity].
  intros u v x cu cv Hu Hv.
  unfold canStamp, BaseAgent_canStamp, unionAgent in *.
  cbn [makeStampable]. unfold BaseAgent_canStamp.
  destruct (makeStampable' u x) as [ux |] eqn:Eu; [| discriminate Hu].
  destruct (makeStampable' v x) as [vx |] eqn:Ev; [| discriminate Hv].
  simpl in Hu, Hv. injection Hu as <-. injection Hv as <-. simpl.
  destruct (verifyStamp u ux) eqn:Vu; simpl.
  - rewrite Vu. reflexivity.
  - destruct (verifyStamp v vx) eqn:Vv; simpl.
    + rewrite Vv, orb_true_r. reflexivity.
    + reflexivity.
Qed.

(** An [ArrayAgent] can stamp an array exactly when its item agent can
    stamp every element. *)
Theorem arrayAgent_canStamp :
  forall itemAgent items,
    canStamp' (arrayAgent itemAgent) (VArray items) = Normal true <->
    (forall x, In x items -> canStamp' itemAgent x = Normal true).
Proof.
  intros itemAgent items. unfold canStamp, BaseAgent_canStamp, arrayAgent.
  rewrite makeStampable_ArrayAgent. simpl. split.
  - intros H. bind_inv H w Hw. bind_inv Hw ys Hys.
    injection Hw as <-. injection H as H. simpl in H.
    apply mapM_Forall2 in Hys. rewrite forallb_forall in H.
    intros x Hx. destruct (Forall2_In_left _ _ _ _ Hys Hx) as [y [Hy Hxy]].
    rewrite Hxy. simpl. rewrite (H y Hy). reflexivity.
  - intros H.
    assert (Hall : exists ys,
               mapM (makeStampable' itemAgent) items = Normal ys
               /\ forallb (verifyStamp itemAgent) ys = true).
    { induction items as [| x xs IH]; simpl.
      - exists []. split; reflexivity.
      - pose proof (H x (or_introl eq_refl)) as Hx.
        bind_inv Hx y Hy. injection Hx as Hx.
        destruct (IH (fun z Hz => H z (or_intror Hz))) as [ys [Hys Hv]].
        exists (y :: ys). rewrite Hy. simpl. rewrite Hys. simpl.
        rewrite Hx, Hv. split; reflexivity. }
    destruct Hall as [ys [Hys Hv]]. rewrite Hys. simpl. rewrite Hv.
    reflexivity.
Qed.

(** An [ObjectAgent] can stamp an object exactly when every key of its
    shape is an own enumerable property of the object whose value the agent
    of the key can stamp; keys and shape are free of the names of
    [Object.prototype]. *)
Theorem objectAgent_canStamp_fields :
  forall objShape proto props,
    NoDup (map fst objShape) -> noPrototypeNames (map fst objShape) ->
    NoDup (map fst props) -> noPrototypeNames (map fst props) ->
    (canStamp' (objectAgent objShape) (VObject proto props) = Normal true <->
     forall property ag,
       In (property, ag) objShape ->
       exists val, assoc property props = Some val
                   /\ canStamp' ag val = Normal true).
Proof.
  intros objShape proto props HndS HnS Hndp Hnp.
  unfold canStamp at 1, BaseAgent_canStamp, objectAgent.
  rewrite makeStampable_ObjectAgent.
  change (notAnObject (VObject proto props)) with false. cbv iota.
  unfold mapValues. change (ownEnumerable (VObject proto props)) with props.
  split.
  - intros H property ag Hin. bind_inv H w Hw. bind_inv Hw qs Hqs.
    injection Hw as <-. injection H as H.
    apply mapProps_Forall2 in Hqs.
    change (verifyStamp (ObjectAgent objShape) (plain qs) = true) in H.
    rewrite verifyStamp_ObjectAgent in H.
    change (notAnObject (plain qs)) with false in H. cbv iota in H.
    rewrite forallb_forall in H. specialize (H _ Hin).
    assert (Hk : isObjectPrototypeName property = false).
    { apply HnS. apply (in_map fst) in Hin. exact Hin. }
    unfold verifyEntry, hasProperty, get in H.
    simpl fst in H. simpl snd in H.
    rewrite (findProperty_plain (plain qs) qs property Hk) in H.
    destruct (assoc property qs) as [q |] eqn:Eq;
      [| simpl in H; discriminate H].
    cbn [negb] in H. cbv iota in H.
    destruct (assoc_sameKey_r _ _ _ _ _ Hqs Eq) as [val [Hval Hst]].
    exists val. split; [exact Hval |].
    rewrite (stampField_agent _ _ _ _ HndS Hin) in Hst.
    unfold canStamp, BaseAgent_canStamp. rewrite Hst. simpl. rewrite H.
    reflexivity.
  - intros H.
    destruct (mapProps_total (stampField camelCase objShape)
                (fun _ => True) props) as [qs [Hqs _]].
    { apply Forall_forall. intros [k x] Hin. simpl.
      unfold stampField, readShape.
      destruct (assoc k objShape) as [ag |] eqn:Eag.
      - apply assoc_In in Eag.
        destruct (H k ag Eag) as [val [Hval Hcan]].
        rewrite (NoDup_assoc _ _ _ Hndp Hin) in Hval. injection Hval as <-.
        unfold canStamp, BaseAgent_canStamp in Hcan. bind_inv Hcan y Hy.
        exists y. split; [exact Hy | exact I].
      - rewrite (Hnp k); [exists x; split; [reflexivity | exact I] |].
        apply (in_map fst) in Hin. exact Hin. }
    rewrite Hqs. cbn [bind]. f_equal.
    apply mapProps_Forall2 in Hqs.
    rewrite verifyStamp_ObjectAgent.
    change (notAnObject (plain qs)) with false. cbv iota.
    apply forallb_forall. intros [k ag] Hin.
    assert (Hk : isObjectPrototypeName k = false).
    { apply HnS. apply (in_map fst) in Hin. exact Hin. }
    destruct (H k ag Hin) as [val [Hval Hcan]].
    destruct (assoc_sameKey_l _ _ _ _ _ Hqs Hval) as [q [Eq Hst]].
    rewrite (stampField_agent _ _ _ _ HndS Hin) in Hst.
    unfold canStamp, BaseAgent_canStamp in Hcan. rewrite Hst in Hcan.
    simpl in Hcan. injection Hcan as Hcan.
    unfold verifyEntry, hasProperty, get. simpl fst. simpl snd.
    rewrite (findProperty_plain (plain qs) qs k Hk), Eq.
    cbn [negb]. cbv iota. exact Hcan.
Qed.

(** Key normalization without collisions and without a change of order:
    when the new names of the keys are distinct and stand in the order of
    the properties of an object (so it is when none of them is an array
    index), an [UnsnakeAgent] hands to its [ObjectAgent] the object with
    every own enumerable key sent through [camelCase], values and order
    kept; on an object whose keys [camelCase] leaves alone it does what
    the [ObjectAgent] does. *)
Theorem unsnakeAgent_renames_keys :
  forall objShape requested,
    notAnObject requested = false ->
    NoDup (map camelCase (map fst (ownEnumerable requested))) ->
    inPropertyOrder (map camelCase (map fst (ownEnumerable requested)))
    = true ->
    let renamed := plain (renameKeys camelCase (ownEnumerable requested)) in
    makeStampable' (unsnakeAgent (objectAgent objShape)) requested
    = makeStampable' (objectAgent objShape) renamed
    /\ canStamp' (unsnakeAgent (objectAgent objShape)) requested
       = canStamp' (objectAgent objShape) renamed
    /\ ((forall key, In key (map fst (ownEnumerable requested)) ->
                     camelCase key = key) ->
        makeStampable' (unsnakeAgent (objectAgent objShape)) requested
        = makeStampable' (objectAgent objShape) requested).
Proof.
  intros objShape requested Hobj Hnd Hord renamed.
  assert (Hmk : makeStampable' (unsnakeAgent (objectAgent objShape)) requested
                = makeStampable' (objectAgent objShape) renamed).
  { unfold unsnakeAgent, objectAgent. cbn [makeStampable]. rewrite Hobj.
    change (makeStampable' (ObjectAgent objShape)
              (mapKeys requested (fun _ key => camelCase key))
            = makeStampable' (ObjectAgent objShape) renamed).
    unfold mapKeys. simpl.
    rewrite (mapKeys_fold_rename camelCase (ownEnumerable requested) []);
      [reflexivity | exact Hnd | exact Hord]. }
  split; [exact Hmk |]. split.
  - unfold canStamp, BaseAgent_canStamp. rewrite Hmk. reflexivity.
  - intros Hfix. rewrite Hmk. unfold objectAgent.
    rewrite !makeStampable_ObjectAgent. rewrite Hobj.
    change (notAnObject renamed) with false. cbv iota.
    unfold mapValues, renamed.
    change (ownEnumerable (plain (renameKeys camelCase
                                    (ownEnumerable requested))))
      with (renameKeys camelCase (ownEnumerable requested)).
    rewrite (renameKeys_fixed camelCase (ownEnumerable requested) Hfix).
    reflexivity.
Qed.

(** The [stamp] of a [ConversionAgent] returns the converted value even
    when the output agent does not take it, and [canStamp] then says no. *)
Theorem conversionAgent_stamp_unverified :
  forall inputAgent converter outputAgent requested,
    verifyStamp inputAgent requested = true ->
    verifyStamp outputAgent (converter requested) = false ->
    stamp' (conversionAgent inputAgent converter outputAgent) requested
    = Normal (converter requested)
    /\ canStamp' (conversionAgent inputAgent converter outputAgent) requested
       = Normal false.
Proof.
  intros inputAgent converter outputAgent requested Hin Hout.
  unfold canStamp, BaseAgent_canStamp. simpl.
  rewrite Hin. simpl. rewrite Hout. split; reflexivity.
Qed.

(** On an enum object that holds no [NaN], an [EnumAgent] takes a value
    exactly when it is [===] to a value of the object. *)
Theorem enumAgent_verifyStamp_strict :
  forall enumObj requested,
    (forall member, In member (ObjectValues enumObj) ->
                    isNaNValue member = false) ->
    verifyStamp (enumAgent enumObj) requested
    = existsb (fun member => strictEquals member requested)
              (ObjectValues enumObj).
Proof.
  intros enumObj requested Hnan. simpl. unfold includes.
  induction (ObjectValues enumObj) as [| m ms IH]; simpl; [reflexivity |].
  rewrite sameValueZero_strictEquals, (Hnan m (or_introl eq_refl)).
  simpl. rewrite orb_false_r. f_equal.
  apply IH. intros member Hm. apply Hnan. right. exact Hm.
Qed.

(** An [ObjectAgent], and an [UnsnakeAgent] over it, refuse what is not a
    non-null object, and an [ArrayAgent] what is not an array: [canStamp]
    says no and [stamp] throws what the refusal throws, the error about the
    value it was given or, when that value has no string, the exception of
    its conversion. *)
Theorem structural_agents_refuse_other_kinds :
  (forall objShape requested,
      notAnObject requested = true ->
      canStamp' (objectAgent objShape) requested = Normal false
      /\ stamp' (objectAgent objShape) requested
         = Throw (cannotBeStamped ToString requested)
      /\ canStamp' (unsnakeAgent (objectAgent objShape)) requested
         = Normal false
      /\ stamp' (unsnakeAgent (objectAgent objShape)) requested
         = Throw (cannotBeStamped ToString requested))
  /\ (forall itemAgent requested,
         isArray requested = false ->
         canStamp' (arrayAgent itemAgent) requested = Normal false
         /\ stamp' (arrayAgent itemAgent) requested
            = Throw (cannotBeStamped ToString requested)).
Proof.
  split.
  - intros objShape requested H. unfold objectAgent, unsnakeAgent.
    assert (Hmk : makeStampable' (ObjectAgent objShape) requested
                  = Normal (VBool false)).
    { rewrite makeStampable_ObjectAgent, H. reflexivity. }
    assert (Hmk' : makeStampable' (UnsnakeAgent (ObjectAgent objShape))
                     requested = Normal requested).
    { cbn [makeStampable]. rewrite H. reflexivity. }
    assert (Hv : verifyStamp (ObjectAgent objShape) (VBool false) = false).
    { rewrite verifyStamp_ObjectAgent. reflexivity. }
    assert (Hv' : verifyStamp (ObjectAgent objShape) requested = false).
    { rewrite verifyStamp_ObjectAgent, H. reflexivity. }
    unfold canStamp, BaseAgent_canStamp, stamp, BaseAgent_stamp.
    rewrite Hmk, Hmk'. cbn [bind]. rewrite Hv.
    change (verifyStamp (UnsnakeAgent (ObjectAgent objShape)) requested)
      with (verifyStamp (ObjectAgent objShape) requested).
    rewrite Hv'. repeat split.
  - intros itemAgent requested H. unfold arrayAgent.
    assert (Hmk : makeStampable' (ArrayAgent itemAgent) requested
                  = Normal requested).
    { rewrite makeStampable_ArrayAgent, H. reflexivity. }
    assert (Hv : verifyStamp (ArrayAgent itemAgent) requested = false).
    { simpl. rewrite H. reflexivity. }
    unfold canStamp, BaseAgent_canStamp, stamp, BaseAgent_stamp.
    rewrite Hmk. cbn [bind]. rewrite Hv. split; reflexivity.
Qed.

(** What [makeStampable] returns has the shape of what it was given: an
    [ObjectAgent] gives the plain object with the own enumerable keys of
    the object, in their order, and with the value of every key its shape
    does not declare; an [ArrayAgent] gives the array of what its item
    agent makes of each element. *)
Theorem makeStampable_keeps_the_shape :
  (forall objShape requested stampable,
      notAnObject requested = false ->
      makeStampable' (objectAgent objShape) requested = Normal stampable ->
      exists props,
        stampable = plain props
        /\ Forall2 (sameKey (fun key val val' =>
                               assoc key objShape = None -> val' = val))
                   (ownEnumerable requested) props)
  /\ (forall itemAgent items stampable,
         makeStampable' (arrayAgent itemAgent) (VArray items)
         = Normal stampable ->
         exists items',
           stampable = VArray items'
           /\ Forall2 (fun x y => makeStampable' itemAgent x = Normal y)
                      items items').
Proof.
  split.
  - intros objShape requested stampable Hobj H. unfold objectAgent in H.
    rewrite makeStampable_ObjectAgent, Hobj in H. unfold mapValues in H.
    bind_inv H qs Hqs. injection H as <-. exists qs.
    split; [reflexivity |]. apply mapProps_Forall2 in Hqs.
    refine (Forall2_impl_In _ _ _ _ _ Hqs).
    intros [k x] [k' y] _ _ [Hk Hst]. simpl in Hk, Hst. subst k'.
    split; [reflexivity |]. simpl. intros Hnone.
    unfold stampField, readShape in Hst. rewrite Hnone in Hst.
    destruct (isObjectPrototypeName k); [discriminate Hst |].
    injection Hst as <-. reflexivity.
  - intros itemAgent items stampable H. unfold arrayAgent in H.
    rewrite makeStampable_ArrayAgent in H. simpl in H.
    bind_inv H ys Hys. injection H as <-. exists ys.
    split; [reflexivity | apply mapM_Forall2; exact Hys].
Qed.

Lemma findProperty_same_prototype r r' o k :
  prototypeOf r = prototypeOf r' -> findProperty r o k = findProperty r' o k.
Proof.
  intros Hr.
  assert (HO : findInObjectPrototype r k = findInObjectPrototype r' k).
  { unfold findInObjectPrototype. rewrite Hr. reflexivity. }
  assert (HA : findInArrayPrototype r k = findInArrayPrototype r' k).
  { unfold findInArrayPrototype. rewrite HO. reflexivity. }
  induction o using value_ind; simpl; try reflexivity.
  - exact HO.
  - exact HA.
  - rewrite HA. reflexivity.
  - rewrite IHo. reflexivity.
Qed.

Lemma forallb_ext_In {A : Type} (f g : A -> bool) xs :
  (forall x, In x xs -> f x = g x) -> forallb f xs = forallb g xs.
Proof.
  induction xs as [| x xs IH]; simpl; intros H; [reflexivity |].
  rewrite (H x (or_introl eq_refl)). f_equal.
  apply IH. intros y Hy. apply H. right. exact Hy.
Qed.

Lemma assoc_app {A : Type} k (ps qs : list (string * A)) :
  assoc k (ps ++ qs)
  = match assoc k ps with Some v => Some v | None => assoc k qs end.
Proof.
  induction ps as [| [k' v] ps IH]; simpl; [reflexivity |].
  destruct (String.eqb k' k); [reflexivity | exact IH].
Qed.

(** Properties the shape does not declare change nothing to what
    [ObjectAgent.verifyStamp] answers. *)
Theorem objectAgent_verifyStamp_extra_keys :
  forall objShape proto props extra,
    (forall key, In key (map fst extra) -> assoc key objShape = None) ->
    verifyStamp (objectAgent objShape) (VObject proto (props ++ extra))
    = verifyStamp (objectAgent objShape) (VObject proto props).
Proof.
  intros objShape proto props extra Hextra. unfold objectAgent.
  rewrite !verifyStamp_ObjectAgent.
  change (notAnObject (VObject proto (props ++ extra))) with false.
  change (notAnObject (VObject proto props)) with false. cbv iota.
  assert (Hfind : forall k ag,
             In (k, ag) objShape ->
             findProperty (VObject proto (props ++ extra))
                          (VObject proto (props ++ extra)) k
             = findProperty (VObject proto props) (VObject proto props) k).
  { intros k ag Hin. simpl. rewrite assoc_app.
    destruct (assoc k props); [reflexivity |].
    rewrite (assoc_None k extra).
    - apply findProperty_same_prototype. reflexivity.
    - intros Hk. apply Hextra in Hk.
      assert (Hsome : exists x, assoc k objShape = Some x).
      { clear - Hin. induction objShape as [| [k' a] sh IH]; simpl;
          [destruct Hin |].
        destruct (String.eqb k' k) eqn:Ek; [eexists; reflexivity |].
        destruct Hin as [E | Hin]; [| exact (IH Hin)].
        injection E as -> _. rewrite String.eqb_refl in Ek.
        discriminate Ek. }
      destruct Hsome as [x Hx]. congruence. }
  apply forallb_ext_In. intros [k ag] Hin.
  unfold verifyEntry, hasProperty, get. simpl fst. simpl snd.
  rewrite (Hfind k ag Hin). reflexivity.
Qed.

(** What an agent has stamped where its [makeStampable] settles, it stamps
    again as it is. *)
Theorem stamp_twice :
  forall a requested stamped,
    isConversionAgent a = false ->
    settlesAt camelCase a requested ->
    stamp' a requested = Normal stamped ->
    stamp' a stamped = Normal stamped.
Proof.
  intros a requested stamped Ha Hs H.
  rewrite (stamp_BaseAgent a requested Ha) in H.
  rewrite (stamp_BaseAgent a stamped Ha). unfold BaseAgent_stamp in *.
  bind_inv H w Hw.
  destruct (verifyStamp a w) eqn:Hv; [| discriminate H].
  injection H as <-.
  rewrite (makeStampable_settled a requested w Hs Hw).
  cbn [bind]. rewrite Hv. reflexivity.
Qed.

(** On plain data an agent of plain data throws nothing but a refusal:
    [makeStampable] returns plain data, [canStamp] answers, and [stamp]
    returns that data or, when [canStamp] says no, throws what the refusal
    throws. *)
Theorem plain_agents_only_refuse :
  forall a requested,
    plainAgent a -> plainData requested ->
    exists stampable,
      makeStampable' a requested = Normal stampable
      /\ plainData stampable
      /\ canStamp' a requested = Normal (verifyStamp a stampable)
      /\ stamp' a requested
         = if verifyStamp a stampable then Normal stampable
           else Throw (cannotBeStamped ToString requested).
Proof.
  intros a requested Hp Hd.
  destruct (makeStampable_plainData a Hp requested Hd) as [w [Hw Hdw]].
  exists w. split; [exact Hw |]. split; [exact Hdw |]. split.
  - unfold canStamp, BaseAgent_canStamp. rewrite Hw. reflexivity.
  - rewrite stamp_BaseAgent; [| destruct a; try reflexivity; destruct Hp].
    unfold BaseAgent_stamp. rewrite Hw. reflexivity.
Qed.

(** What an agent of plain data stamps is the value it was given, where
    the arrays and objects an [ObjectAgent] went through have become plain
    objects with the same keys; nothing else changes. *)
Theorem stamp_objectifies :
  forall a requested stamped,
    plainAgent a -> plainData requested ->
    stamp' a requested = Normal stamped ->
    objectified requested stamped.
Proof.
  intros a requested stamped Hp Hd H.
  rewrite stamp_BaseAgent in H; [| destruct a; try reflexivity; destruct Hp].
  unfold BaseAgent_stamp in H. bind_inv H w Hw.
  destruct (verifyStamp a w) eqn:Hv; [| discriminate H].
  injection H as <-.
  exact (makeStampable_objectified a Hp requested w Hd Hw Hv).
Qed.

End Contracts.

(** ** Closed examples *)

(** C2: a record whose prototype has the [title] the shape asks for, and
    that has no [title] of its own, is taken by [verifyStamp], and
    [hasProperty] says yes. *)
Lemma objectAgent_inherited_property :
  let requested := VObject (plain [("title", VString "t")]) [] in
  hasOwnProperty requested "title" = false
  /\ verifyStamp (objectAgent [("title", stringAgent)]) requested = true
  /\ hasProperty requested "title" = true.
Proof.
  repeat split.
Qed.

(** C2: the theorem at a record with no [title] at all. *)
Lemma objectAgent_verifyStamp_property_witness :
  hasProperty (plain [("body", VString "b")]) "title" = false
  /\ verifyStamp (objectAgent [("title", stringAgent)])
                 (plain [("body", VString "b")]) = false.
Proof.
  split; [reflexivity |].
  apply (proj1 objectAgent_verifyStamp_property
               [("title", stringAgent)] (plain [("body", VString "b")])
               "title" stringAgent).
  - simpl. left. reflexivity.
  - reflexivity.
Defined.

(** C4: a converter that appends a letter.  The agent can stamp ["a"];
    [makeStampable] gives ["ax"], and ["axx"] on that. *)
Lemma conversionAgent_makeStampable_twice :
  let a := conversionAgent stringAgent appendX stringAgent in
  canStamp lodashCamelCase a (VString "a") = Normal true
  /\ makeStampable lodashCamelCase a (VString "a") = Normal (VString "ax")
  /\ (stampable <- makeStampable lodashCamelCase a (VString "a") ;;
      makeStampable lodashCamelCase a stampable) = Normal (VString "axx")
  /\ (stampable <- makeStampable lodashCamelCase a (VString "a") ;;
      makeStampable lodashCamelCase a stampable)
     <> makeStampable lodashCamelCase a (VString "a").
Proof.
  repeat split. discriminate.
Qed.

(** C4: key normalization that does not leave its own results alone.
    [camelCase] makes [userID] of [user_i_d], and [userId] of [userID]; the
    agent can stamp the record, and its second [makeStampable] renames a
    key again. *)
Lemma unsnakeAgent_makeStampable_twice :
  let a := unsnakeAgent (objectAgent [("firstName", stringAgent)]) in
  let requested :=
    plain [("first_name", VString "Al"); ("user_i_d", VNumber 7)] in
  lodashCamelCase "user_i_d" = "userID"
  /\ lodashCamelCase "userID" = "userId"
  /\ canStamp lodashCamelCase a requested = Normal true
  /\ makeStampable lodashCamelCase a requested
     = Normal (plain [("firstName", VString "Al"); ("userID", VNumber 7)])
  /\ (stampable <- makeStampable lodashCamelCase a requested ;;
      makeStampable lodashCamelCase a stampable)
     = Normal (plain [("firstName", VString "Al"); ("userId", VNumber 7)]).
Proof.
  repeat split.
Qed.

Lemma person_settles : settlesAt lodashCamelCase personAgent person.
Proof.
  unfold personAgent, person, unsnakeAgent, objectAgent. cbn [settlesAt].
  split.
  - intros key Hkey. simpl in Hkey.
    destruct Hkey as [<- | [<- | []]]; reflexivity.
  - change (mapKeys (plain [("first_name", VString "Al");
                            ("age", VString "3.5")])
                    (fun _ key => lodashCamelCase key))
      with (plain [("firstName", VString "Al"); ("age", VString "3.5")]).
    split; [intros val _; exact I |]. split; [| exact I].
    intros val Hval. simpl in Hval.
    destruct Hval as [E | [E | []]]; [discriminate E |].
    injection E as <-.
    apply settlesAt_UnionAgent_left.
    + reflexivity.
    + intros _ H. vm_compute in H. discriminate H.
Defined.

Lemma article_plainData : plainData article.
Proof.
  simpl. split; [| split].
  - repeat constructor; simpl; intuition discriminate.
  - intros k Hk. simpl in Hk.
    destruct Hk as [<- | [<- | [<- | []]]]; reflexivity.
  - repeat split.
Defined.

(** C4: the theorem at a record in snake case, with an age that may be
    [null] and is read from a string; at two unions with the null agent;
    and at the title and the tags of the article. *)
Lemma makeStampable_idempotent_witness :
  let price := conversionAgent stringAgent parseFloat numberAgent in
  canStamp lodashCamelCase personAgent person = Normal true
  /\ makeStampable lodashCamelCase personAgent person
     = Normal (plain [("firstName", VString "Al"); ("age", VNumber 3.5)])
  /\ (stampable <- makeStampable lodashCamelCase personAgent person ;;
      makeStampable lodashCamelCase personAgent stampable)
     = makeStampable lodashCamelCase personAgent person
  /\ settlesAt lodashCamelCase (nullableAgent price) (VString "3.5")
  /\ settlesAt lodashCamelCase (unionAgent price nullAgent) VNull
  /\ settlesAt lodashCamelCase
       (objectAgent [ ("title", stringAgent);
                      ("tags", nullableAgent (arrayAgent stringAgent)) ])
       article.
Proof.
  split; [reflexivity |]. split; [reflexivity |].
  split; [| split; [| split]].
  - apply (proj1 (makeStampable_idempotent lodashCamelCase)
                 personAgent person).
    + exact person_settles.
    + reflexivity.
  - apply (proj1 (proj2 (makeStampable_idempotent lodashCamelCase))).
    + reflexivity.
    + intros _ H. vm_compute in H. discriminate H.
  - apply (proj1 (proj2 (proj2 (makeStampable_idempotent lodashCamelCase)))).
    + intros H. discriminate H.
    + reflexivity.
  - apply (proj2 (proj2 (proj2 (makeStampable_idempotent lodashCamelCase)))).
    + simpl. unfold noPrototypeNames. simpl.
      repeat split;
        try (repeat constructor; simpl; intuition discriminate);
        try (intros k Hk; repeat destruct Hk as [<- | Hk]; try reflexivity;
             destruct Hk).
    + exact article_plainData.
Defined.

(** C4 does not extend to every union of conversions: each of the two
    conversions settles on every value, and their union can stamp ["3.5"],
    makes it 3.5, and makes 3.5 into 0. *)
Lemma unionAgent_of_conversions_twice :
  (forall x, settlesAt lodashCamelCase
               (conversionAgent numberAgent toZero numberAgent) x)
  /\ (forall x, settlesAt lodashCamelCase
                  (conversionAgent stringAgent parseFloat numberAgent) x)
  /\ canStamp lodashCamelCase zeroOrParsed (VString "3.5") = Normal true
  /\ makeStampable lodashCamelCase zeroOrParsed (VString "3.5")
     = Normal (VNumber 3.5)
  /\ makeStampable lodashCamelCase zeroOrParsed (VNumber 3.5)
     = Normal (VNumber 0).
Proof.
  split; [intros x _ _; reflexivity |].
  split; [intros x _ H; destruct x; discriminate H |].
  repeat split.
Qed.

(** Nor to a union over a key-normalizing agent: the second
    [makeStampable] renames a key that the first one kept. *)
Lemma unionAgent_of_unsnake_twice :
  canStamp lodashCamelCase snakeOrCamel snakeRecord = Normal true
  /\ makeStampable lodashCamelCase snakeOrCamel snakeRecord
     = Normal (plain [ ("foo_bar", VString "a");
                       ("y", plain [("bC", VNumber 1)]) ])
  /\ (stampable <- makeStampable lodashCamelCase snakeOrCamel snakeRecord ;;
      makeStampable lodashCamelCase snakeOrCamel stampable)
     = Normal (plain [ ("fooBar", VString "a");
                       ("y", plain [("bC", VNumber 1)]) ]).
Proof.
  repeat split.
Qed.

(** Nor, under a union, to data that is not plain: a union of agents of
    plain data can stamp a record that holds, deep in an array, a key named
    [constructor], and its second [makeStampable] throws. *)
Lemma unionAgent_second_makeStampable_throws :
  plainAgent listOrRecord
  /\ canStamp lodashCamelCase listOrRecord recordWithConstructor = Normal true
  /\ makeStampable lodashCamelCase listOrRecord recordWithConstructor
     = Normal
         (plain [ ("k", plain [ ("0", plain [ ("a", VNumber 1);
                                              ("junk",
                                               plain [("constructor",
                                                       VNumber 1)]) ]) ]);
                  ("z", VNumber 0) ])
  /\ (stampable <- makeStampable lodashCamelCase listOrRecord
                                 recordWithConstructor ;;
      makeStampable lodashCamelCase listOrRecord stampable)
     = Throw notAFunction.
Proof.
  split; [| repeat split].
  simpl. unfold noPrototypeNames. simpl.
  repeat split;
    try (repeat constructor; simpl; intuition discriminate);
    try (intros k Hk; repeat destruct Hk as [<- | Hk]; try reflexivity;
         destruct Hk).
Qed.

(** Nor to a union over a shape that declares a name of
    [Object.prototype]: with [__proto__] in a shape, the second
    [makeStampable] of the union turns an array into an object. *)
Lemma unionAgent_with_proto_shape_twice :
  plainData recordWithoutPrototype
  /\ canStamp lodashCamelCase protoOrRecord recordWithoutPrototype = Normal true
  /\ makeStampable lodashCamelCase protoOrRecord recordWithoutPrototype
     = Normal
         (plain [ ("m", plain [ ("p", VObject (plain [("z", VString "s")]) []);
                                ("q", plain []) ]);
                  ("j", VArray [VString "q"]) ])
  /\ (stampable <- makeStampable lodashCamelCase protoOrRecord
                                 recordWithoutPrototype ;;
      makeStampable lodashCamelCase protoOrRecord stampable)
     = Normal
         (plain [ ("m", plain [ ("p", VObject (plain [("z", VString "s")]) []);
                                ("q", plain []) ]);
                  ("j", plain [("0", VString "q")]) ]).
Proof.
  split; [| repeat split].
  simpl. unfold noPrototypeNames. simpl.
  repeat split;
    try (repeat constructor; simpl; intuition discriminate);
    try (intros k Hk; repeat destruct Hk as [<- | Hk]; try reflexivity;
         destruct Hk).
Qed.

(** C8: an enum object that holds [NaN].  The agent takes [NaN], which is
    not [===] to any value of the object. *)
Lemma enumAgent_NaN :
  verifyStamp (enumAgent [("A", VNumber nan)]) (VNumber nan) = true
  /\ existsb (fun member => strictEquals member (VNumber nan))
             (ObjectValues [("A", VNumber nan)]) = false.
Proof.
  split; reflexivity.
Qed.

(** C10: at a price that may be [null], read from a string: [null] can be
    stamped, and [stamp] throws on it. *)
Lemma conversionAgent_canStamp_but_stamp_throws_witness :
  let a := conversionAgent stringAgent parseFloat
                           (nullableAgent numberAgent) in
  canStamp lodashCamelCase a VNull = Normal true
  /\ stamp lodashCamelCase exampleToString a VNull
     = Throw (Error "null cannot be stamped by agent [object Object]").
Proof.
  apply (proj1 (conversionAgent_canStamp_but_stamp_throws lodashCamelCase
                  exampleToString)
               stringAgent parseFloat (nullableAgent numberAgent) VNull);
    reflexivity.
Defined.

(** The own-property statement at a record with a title. *)
Lemma objectAgent_canStamp_own_property_witness :
  exists val,
    assoc "title" (ownEnumerable (plain [("title", VString "t")])) = Some val.
Proof.
  apply (objectAgent_canStamp_own_property lodashCamelCase
           [("title", stringAgent)] (plain [("title", VString "t")])
           "title" stringAgent).
  - simpl. left. reflexivity.
  - reflexivity.
  - reflexivity.
Defined.

(** The exception at the object read from [{"toString": null}]. *)
Lemma objectAgent_makeStampable_prototype_name_witness :
  makeStampable lodashCamelCase (objectAgent [("title", stringAgent)])
                (plain [("toString", VNull)])
  = Throw notAFunction.
Proof.
  apply (objectAgent_makeStampable_prototype_name lodashCamelCase
           [("title", stringAgent)] (plain [("toString", VNull)])
           "toString" VNull).
  - reflexivity.
  - simpl. left. reflexivity.
  - reflexivity.
  - reflexivity.
Defined.

(** ** The methods together, at closed examples *)

(** [canStamp] guards [stamp]: the string agent refuses the object read
    from the JSON text [{"toString": "x"}], which has no string, and
    [stamp] throws the [TypeError] of its conversion. *)
Lemma canStamp_guards_stamp_witness :
  canStamp lodashCamelCase stringAgent (plain [("toString", VString "x")])
  = Normal false
  /\ stamp lodashCamelCase exampleToString stringAgent
           (plain [("toString", VString "x")])
     = Throw cannotConvert.
Proof.
  split; [reflexivity |].
  apply (proj2 (proj1 (proj2 (proj2 (proj2
           (canStamp_guards_stamp lodashCamelCase exampleToString
              stringAgent (plain [("toString", VString "x")]) eq_refl))))
           eq_refl)).
  reflexivity.
Defined.

(** The exception of a refusal by the string agent, at an object without
    prototype: the [TypeError] of its conversion to a string. *)
Lemma exceptions_of_the_methods_witness :
  stamp lodashCamelCase exampleToString stringAgent (VObject VNull [])
  = Throw cannotConvert
  /\ ((cannotConvert = notAFunction
       /\ canStamp lodashCamelCase stringAgent (VObject VNull [])
          = Throw notAFunction)
      \/ (cannotConvert = cannotBeStamped exampleToString (VObject VNull [])
          /\ canStamp lodashCamelCase stringAgent (VObject VNull [])
             = Normal false)).
Proof.
  split; [reflexivity |].
  apply (proj2 (proj2 (exceptions_of_the_methods lodashCamelCase
                         exampleToString stringAgent (VObject VNull [])
                         cannotConvert eq_refl))).
  reflexivity.
Defined.

(** An array of nullable strings keeps its value. *)
Lemma passive_agents_keep_the_value_witness :
  makeStampable lodashCamelCase (arrayAgent (nullableAgent stringAgent))
                (VArray [VString "a"; VNull])
  = Normal (VArray [VString "a"; VNull]).
Proof.
  apply (passive_agents_keep_the_value lodashCamelCase exampleToString
           (arrayAgent (nullableAgent stringAgent))
           (VArray [VString "a"; VNull])).
  - simpl. repeat split.
  - simpl. repeat split.
Defined.

(** Neither agent of the union can stamp the record that inherits its
    title, the left one takes it as it is, and the union can stamp it. *)
Lemma unionAgent_canStamp_witness :
  canStamp lodashCamelCase (objectAgent [("title", stringAgent)]) heir
  = Normal false
  /\ canStamp lodashCamelCase numberAgent heir = Normal false
  /\ canStamp lodashCamelCase
              (unionAgent (objectAgent [("title", stringAgent)]) numberAgent)
              heir
     = Normal true.
Proof.
  split; [reflexivity |]. split; [reflexivity |].
  apply (proj1 (unionAgent_canStamp lodashCamelCase exampleToString)
               (objectAgent [("title", stringAgent)]) numberAgent heir
               false false); reflexivity.
Defined.

(** The fields of the article, one by one. *)
Lemma objectAgent_canStamp_fields_witness :
  canStamp lodashCamelCase
           (objectAgent [ ("title", stringAgent);
                          ("tags", arrayAgent stringAgent) ])
           article
  = Normal true.
Proof.
  apply (objectAgent_canStamp_fields lodashCamelCase
           [ ("title", stringAgent); ("tags", arrayAgent stringAgent) ]
           VObjectPrototype
           [ ("title", VString "t");
             ("tags", VArray [VString "a"; VString "b"]);
             ("price", VString "3.5") ]).
  - repeat constructor; simpl; intuition discriminate.
  - intros k Hk. simpl in Hk. destruct Hk as [<- | [<- | []]]; reflexivity.
  - repeat constructor; simpl; intuition discriminate.
  - intros k Hk. simpl in Hk.
    destruct Hk as [<- | [<- | [<- | []]]]; reflexivity.
  - intros property ag Hin. simpl in Hin.
    destruct Hin as [E | [E | []]]; injection E as <- <-;
      eexists; split; reflexivity.
Defined.

(** Two keys in snake case, renamed. *)
Lemma unsnakeAgent_renames_keys_witness :
  makeStampable lodashCamelCase
    (unsnakeAgent (objectAgent [("firstName", stringAgent)]))
    (plain [("first_name", VString "Al"); ("last_name", VString "B")])
  = makeStampable lodashCamelCase
      (objectAgent [("firstName", stringAgent)])
      (plain [("firstName", VString "Al"); ("lastName", VString "B")]).
Proof.
  apply (unsnakeAgent_renames_keys lodashCamelCase
           [("firstName", stringAgent)]
           (plain [("first_name", VString "Al"); ("last_name", VString "B")])).
  - reflexivity.
  - repeat constructor; simpl; intuition discriminate.
  - reflexivity.
Defined.

(** A conversion to numbers that gives a string. *)
Lemma conversionAgent_stamp_unverified_witness :
  stamp lodashCamelCase exampleToString
        (conversionAgent stringAgent appendX numberAgent) (VString "a")
  = Normal (VString "ax")
  /\ canStamp lodashCamelCase
              (conversionAgent stringAgent appendX numberAgent) (VString "a")
     = Normal false.
Proof.
  apply (conversionAgent_stamp_unverified lodashCamelCase exampleToString
           stringAgent appendX numberAgent (VString "a")); reflexivity.
Defined.

(** An enum of two strings. *)
Lemma enumAgent_verifyStamp_strict_witness :
  verifyStamp (enumAgent [("Up", VString "UP"); ("Down", VString "DOWN")])
              (VString "UP")
  = existsb (fun member => strictEquals member (VString "UP"))
            (ObjectValues [("Up", VString "UP"); ("Down", VString "DOWN")]).
Proof.
  apply (enumAgent_verifyStamp_strict
           [("Up", VString "UP"); ("Down", VString "DOWN")] (VString "UP")).
  intros member Hm. simpl in Hm.
  destruct Hm as [<- | [<- | []]]; reflexivity.
Defined.

(** A string is no record. *)
Lemma structural_agents_refuse_other_kinds_witness :
  canStamp lodashCamelCase (objectAgent [("title", stringAgent)]) (VString "abc")
  = Normal false.
Proof.
  apply (proj1 (structural_agents_refuse_other_kinds lodashCamelCase
                  exampleToString)
               [("title", stringAgent)] (VString "abc")).
  reflexivity.
Defined.

(** The shape of the stamped article. *)
Lemma makeStampable_keeps_the_shape_witness :
  exists props,
    plain [ ("title", VString "t");
            ("tags", VArray [VString "a"; VString "b"]);
            ("price", VNumber 3.5) ] = plain props
    /\ Forall2 (sameKey (fun key val val' =>
                           assoc key [ ("title", stringAgent);
                                       ("tags",
                                        nullableAgent (arrayAgent stringAgent));
                                       ("price",
                                        conversionAgent stringAgent parseFloat
                                                        numberAgent) ]
                           = None -> val' = val))
               (ownEnumerable article) props.
Proof.
  apply (proj1 (makeStampable_keeps_the_shape lodashCamelCase)
               [ ("title", stringAgent);
                 ("tags", nullableAgent (arrayAgent stringAgent));
                 ("price", conversionAgent stringAgent parseFloat numberAgent) ]
               article); reflexivity.
Defined.

(** An article with a date the shape does not ask for. *)
Lemma objectAgent_verifyStamp_extra_keys_witness :
  verifyStamp (objectAgent [("title", stringAgent)])
              (plain ([("title", VString "t")] ++ [("date", VString "d")]))
  = verifyStamp (objectAgent [("title", stringAgent)])
                (plain [("title", VString "t")]).
Proof.
  apply (objectAgent_verifyStamp_extra_keys
           [("title", stringAgent)] VObjectPrototype
           [("title", VString "t")] [("date", VString "d")]).
  intros key Hk. simpl in Hk. destruct Hk as [<- | []]. reflexivity.
Defined.

(** The stamped record, stamped again. *)
Lemma stamp_twice_witness :
  let stamped := plain [("firstName", VString "Al"); ("age", VNumber 3.5)] in
  stamp lodashCamelCase exampleToString personAgent person = Normal stamped
  /\ stamp lodashCamelCase exampleToString personAgent stamped
     = Normal stamped.
Proof.
  split; [reflexivity |].
  apply (stamp_twice lodashCamelCase exampleToString personAgent person).
  - reflexivity.
  - exact person_settles.
  - reflexivity.
Defined.

(** The tags of the article, which may be [null]. *)
Lemma plain_agents_only_refuse_witness :
  exists stampable,
    makeStampable lodashCamelCase
      (objectAgent [("tags", nullableAgent (arrayAgent stringAgent))]) article
    = Normal stampable
    /\ plainData stampable
    /\ canStamp lodashCamelCase
         (objectAgent [("tags", nullableAgent (arrayAgent stringAgent))])
         article
       = Normal (verifyStamp
                   (objectAgent
                      [("tags", nullableAgent (arrayAgent stringAgent))])
                   stampable)
    /\ stamp lodashCamelCase exampleToString
         (objectAgent [("tags", nullableAgent (arrayAgent stringAgent))])
         article
       = if verifyStamp
              (objectAgent [("tags", nullableAgent (arrayAgent stringAgent))])
              stampable
         then Normal stampable
         else Throw (cannotBeStamped exampleToString article).
Proof.
  apply (plain_agents_only_refuse lodashCamelCase exampleToString
           (objectAgent [("tags", nullableAgent (arrayAgent stringAgent))])
           article).
  - simpl. split; [| split].
    + repeat constructor; simpl; intuition discriminate.
    + intros k Hk. simpl in Hk. destruct Hk as [<- | []]. reflexivity.
    + repeat split.
  - exact article_plainData.
Defined.

(** An array, where a record with the key [0] is asked for. *)
Lemma stamp_objectifies_witness :
  objectified (VArray [VString "a"]) (plain [("0", VString "a")]).
Proof.
  apply (stamp_objectifies lodashCamelCase exampleToString
           (objectAgent [("0", stringAgent)]) (VArray [VString "a"])).
  - simpl. split; [| split].
    + repeat constructor; simpl; intuition discriminate.
    + intros k Hk. simpl in Hk. destruct Hk as [<- | []]. reflexivity.
    + repeat split.
  - simpl. repeat split.
  - reflexivity.
Defined.
